(** * convert-images.py: images to base64 data URIs, collected in a JSON file

    A shallow embedding of [src/image handliing/convert-images.py] and the
    properties of its two programs: the general converter
    ([image_to_data_uri], [convert_all_images_in_folder] and the [__main__]
    block) and the fixed-folder script appended to the same file.

    Conventions of the embedding.
    - A Python [str] is a Rocq [string] holding its UTF-8 bytes; a Python
      [int] is a [Z]; [bytes] is [list byte].
    - [str.lower] is modelled on ASCII letters.  The program only compares
      lowered text with ASCII literals that contain no letter k, so the
      non-ASCII case mappings of Python never change an outcome.
    - Paths are POSIX paths in pathlib's normal form ([posixpath] and
      [pathlib] as of CPython 3.4 to 3.13).
    - The file system and the console are an explicit [world] threaded
      through a state-and-exception monad [io]. *)

From Stdlib Require Import ZArith List Bool Lia.
From Stdlib Require Import Strings.String Strings.Ascii Strings.Byte DecimalString.
Import ListNotations.
Local Open Scope string_scope.
Local Open Scope Z_scope.

(** ** Python strings *)

Definition LF : string := String (ascii_of_nat 10) "".

(** [len(s)] *)
Definition len (s : string) : Z := Z.of_nat (String.length s).

(** [s[n:]] and [s[:n]] for a natural number of characters. *)
Fixpoint str_drop (n : nat) (s : string) : string :=
  match n, s with
  | O, _ => s
  | S _, EmptyString => EmptyString
  | S k, String _ t => str_drop k t
  end.

Fixpoint str_take (n : nat) (s : string) : string :=
  match n, s with
  | O, _ => EmptyString
  | S _, EmptyString => EmptyString
  | S k, String c t => String c (str_take k t)
  end.

(** [s[i:]], [s[:i]] and [s[i:i+1]] for an index [0 <= i]. *)
Definition slice_from (i : Z) (s : string) : string := str_drop (Z.to_nat i) s.
Definition slice_to (i : Z) (s : string) : string := str_take (Z.to_nat i) s.
Definition slice_at (i : Z) (s : string) : string :=
  str_take 1 (str_drop (Z.to_nat i) s).

(** [s.rfind(c)] for a one-character [c]: the highest index of [c], or -1. *)
Fixpoint rfind (c : ascii) (s : string) : Z :=
  match s with
  | EmptyString => -1
  | String a t =>
      let r := rfind c t in
      if 0 <=? r then r + 1
      else if Ascii.eqb a c then 0 else -1
  end.

Definition lower_char (c : ascii) : ascii :=
  let n := nat_of_ascii c in
  if (65 <=? n)%nat && (n <=? 90)%nat then ascii_of_nat (n + 32) else c.

(** [s.lower()] *)
Fixpoint lower (s : string) : string :=
  match s with
  | EmptyString => EmptyString
  | String c t => String (lower_char c) (lower t)
  end.

(** [x in xs] for a list of strings. *)
Definition str_in (x : string) (xs : list string) : bool :=
  existsb (String.eqb x) xs.

(** [str(n)] for a length. *)
Definition str_of_nat (n : nat) : string :=
  NilEmpty.string_of_uint (Nat.to_uint n).

(** ** Paths *)

(** [genericpath._splitext(p, '/', None, '.')], the body of
    [os.path.splitext]: the [while] loop that skips leading dots runs
    [dotIndex - filenameIndex] times at most, which is its [steps]. *)
Fixpoint splitext_scan (p : string) (dotIndex filenameIndex : Z) (steps : nat)
  : string * string :=
  match steps with
  | O => (p, "")
  | S k =>
      if negb (slice_at filenameIndex p =? ".")%string
      then (slice_to dotIndex p, slice_from dotIndex p)
      else splitext_scan p dotIndex (filenameIndex + 1) k
  end.

Definition splitext (p : string) : string * string :=
  let sepIndex := rfind "/" p in
  let dotIndex := rfind "." p in
  if sepIndex <? dotIndex
  then
    let filenameIndex := sepIndex + 1 in
    splitext_scan p dotIndex filenameIndex (Z.to_nat (dotIndex - filenameIndex))
  else (p, "").

(** [PurePath.suffix] of a path whose final component is [name]. *)
Definition suffix (name : string) : string :=
  let i := rfind "." name in
  if (0 <? i) && (i <? len name - 1) then slice_from i name else "".

(** [folder / name] and [str()] of the result, for a [folder] in normal form
    other than the current directory and a [name] without separator. *)
Definition path_join (folder name : string) : string :=
  folder ++ "/" ++ name.

(** ** base64 (RFC 4648, section 4), as [base64.b64encode] and
    [base64.b64decode] compute it *)

Definition b64_alphabet : string :=
  "ABCDEFGHIJKLMNOPQRSTUVWXYZabcdefghijklmnopqrstuvwxyz0123456789+/".

Definition pad_char : ascii := "="%char.

Definition b2a (i : Z) : ascii :=
  match String.get (Z.to_nat i) b64_alphabet with
  | Some c => c
  | None => pad_char
  end.

Fixpoint index_of (c : ascii) (s : string) : option Z :=
  match s with
  | EmptyString => None
  | String a t =>
      if Ascii.eqb a c then Some 0
      else match index_of c t with Some i => Some (i + 1) | None => None end
  end.

Definition a2b (c : ascii) : option Z := index_of c b64_alphabet.

Definition byte_to_Z (b : byte) : Z := Z.of_N (Byte.to_N b).

Definition byte_of_Z (z : Z) : byte :=
  match Byte.of_N (Z.to_N z) with
  | Some b => b
  | None => x00
  end.

(** The 24-bit group of three input bytes and its four 6-bit digits. *)
Definition group24 (a b c : Z) : Z :=
  Z.lor (Z.lor (Z.shiftl a 16) (Z.shiftl b 8)) c.

Definition sextet (n : Z) (k : Z) : Z := Z.land (Z.shiftr n k) 63.

Definition digit (n : Z) (k : Z) : ascii := b2a (sextet n k).

Fixpoint b64encode (data : list byte) : string :=
  match data with
  | [] => ""
  | [a] =>
      let n := group24 (byte_to_Z a) 0 0 in
      String (digit n 18) (String (digit n 12)
        (String pad_char (String pad_char "")))
  | [a; b] =>
      let n := group24 (byte_to_Z a) (byte_to_Z b) 0 in
      String (digit n 18) (String (digit n 12)
        (String (digit n 6) (String pad_char "")))
  | a :: b :: c :: rest =>
      let n := group24 (byte_to_Z a) (byte_to_Z b) (byte_to_Z c) in
      String (digit n 18) (String (digit n 12)
        (String (digit n 6) (String (digit n 0) (b64encode rest))))
  end.

(** The 24-bit group of four digits, and the byte of a group at a shift. *)
Definition ungroup24 (s0 s1 s2 s3 : Z) : Z :=
  Z.lor (Z.lor (Z.lor (Z.shiftl s0 18) (Z.shiftl s1 12)) (Z.shiftl s2 6)) s3.

Definition octet (m : Z) (k : Z) : byte := byte_of_Z (Z.land (Z.shiftr m k) 255).

(** Decoding of canonical base64 text: groups of four digits, padding only
    in the last group; anything else is [binascii.Error], here [None]. *)
Fixpoint b64decode (s : string) : option (list byte) :=
  match s with
  | EmptyString => Some []
  | String c0 (String c1 (String c2 (String c3 rest))) =>
      match a2b c0, a2b c1 with
      | Some s0, Some s1 =>
          if Ascii.eqb c2 pad_char then
            if Ascii.eqb c3 pad_char && (rest =? "")%string then
              Some [octet (ungroup24 s0 s1 0 0) 16]
            else None
          else
            match a2b c2 with
            | None => None
            | Some s2 =>
                if Ascii.eqb c3 pad_char then
                  if (rest =? "")%string then
                    let m := ungroup24 s0 s1 s2 0 in
                    Some [octet m 16; octet m 8]
                  else None
                else
                  match a2b c3, b64decode rest with
                  | Some s3, Some tail =>
                      let m := ungroup24 s0 s1 s2 s3 in
                      Some (octet m 16 :: octet m 8 :: octet m 0 :: tail)
                  | _, _ => None
                  end
            end
      | _, _ => None
      end
  | _ => None
  end.

(** ** json.dump(results, f, indent=2) *)

Definition DQ : string := String (ascii_of_nat 34) "".
Definition BS : string := String (ascii_of_nat 92) "".

Definition cont_byte (b : Z) : bool := (128 <=? b) && (b <=? 191).

(** The code points of a [str], from its UTF-8 bytes.  A byte that starts no
    well-formed sequence stands for the lone surrogate U+DC00 + byte that
    [os.fsdecode] puts in a file name for it. *)
Fixpoint code_points (bs : list Z) : list Z :=
  match bs with
  | [] => []
  | b0 :: r0 =>
      let undecodable := fun _ : unit => (56320 + b0) :: code_points r0 in
      if b0 <? 128 then b0 :: code_points r0
      else
        match r0 with
        | [] => undecodable tt
        | b1 :: r1 =>
            if (194 <=? b0) && (b0 <=? 223) then
              if cont_byte b1
              then ((b0 - 192) * 64 + (b1 - 128)) :: code_points r1
              else undecodable tt
            else
              match r1 with
              | [] => undecodable tt
              | b2 :: r2 =>
                  if (224 <=? b0) && (b0 <=? 239) then
                    if cont_byte b1 && cont_byte b2
                       && negb ((b0 =? 224) && (b1 <? 160))
                       && negb ((b0 =? 237) && (159 <? b1))
                    then ((b0 - 224) * 4096 + (b1 - 128) * 64 + (b2 - 128))
                           :: code_points r2
                    else undecodable tt
                  else
                    match r2 with
                    | [] => undecodable tt
                    | b3 :: r3 =>
                        if (240 <=? b0) && (b0 <=? 244)
                           && cont_byte b1 && cont_byte b2 && cont_byte b3
                           && negb ((b0 =? 240) && (b1 <? 144))
                           && negb ((b0 =? 244) && (143 <? b1))
                        then ((b0 - 240) * 262144 + (b1 - 128) * 4096
                              + (b2 - 128) * 64 + (b3 - 128))
                               :: code_points r3
                        else undecodable tt
                    end
              end
        end
  end.

Definition hex_digit (n : Z) : ascii :=
  match String.get (Z.to_nat n) "0123456789abcdef" with
  | Some c => c
  | None => "0"%char
  end.

(** ['\\u{0:04x}'.format(n)] for [n < 0x10000]. *)
Definition u_escape (n : Z) : string :=
  BS ++ "u"
     ++ String (hex_digit (Z.land (Z.shiftr n 12) 15))
          (String (hex_digit (Z.land (Z.shiftr n 8) 15))
             (String (hex_digit (Z.land (Z.shiftr n 4) 15))
                (String (hex_digit (Z.land n 15)) ""))).

(** The replacement of one code point in [py_encode_basestring_ascii]. *)
Definition escape_code_point (n : Z) : string :=
  if n =? 92 then BS ++ BS
  else if n =? 34 then BS ++ DQ
  else if n =? 8 then BS ++ "b"
  else if n =? 12 then BS ++ "f"
  else if n =? 10 then BS ++ "n"
  else if n =? 13 then BS ++ "r"
  else if n =? 9 then BS ++ "t"
  else if (32 <=? n) && (n <=? 126) then String (ascii_of_nat (Z.to_nat n)) ""
  else if n <? 65536 then u_escape n
  else
    let m := n - 65536 in
    u_escape (Z.lor 55296 (Z.land (Z.shiftr m 10) 1023))
      ++ u_escape (Z.lor 56320 (Z.land m 1023)).

Definition py_encode_basestring_ascii (s : string) : string :=
  DQ ++ String.concat ""
          (map escape_code_point
             (code_points (map byte_to_Z (list_byte_of_string s))))
     ++ DQ.

(** A Python [dict] with [str] keys and values: insertion ordered, and an
    assignment to a present key keeps the key's place. *)
Definition dict : Type := list (string * string).

Fixpoint dict_set (d : dict) (k v : string) : dict :=
  match d with
  | [] => [(k, v)]
  | (k', v') :: t =>
      if (k' =? k)%string then (k', v) :: t else (k', v') :: dict_set t k v
  end.

Fixpoint dict_get (d : dict) (k : string) : option string :=
  match d with
  | [] => None
  | (k', v') :: t => if (k' =? k)%string then Some v' else dict_get t k
  end.

(** [d.get(k, default)] *)
Definition dict_get_default (d : dict) (k default : string) : string :=
  match dict_get d k with
  | Some v => v
  | None => default
  end.

Definition dict_keys (d : dict) : list string := map fst d.

Definition json_item (kv : string * string) : string :=
  py_encode_basestring_ascii (fst kv) ++ ": "
    ++ py_encode_basestring_ascii (snd kv).

(** [json.dumps(d, indent=2)] of a [dict] of strings. *)
Definition json_dumps (d : dict) : string :=
  match d with
  | [] => "{}"
  | _ :: _ =>
      "{" ++ LF ++ "  "
          ++ String.concat ("," ++ LF ++ "  ") (map json_item d)
          ++ LF ++ "}"
  end.

(** ** The file system and the console *)

Inductive node : Type :=
  | File (data : list byte)
  | Dir (names : list string).

(** The nodes of the file system by path.  A directory holds the names of its
    entries in the order in which the platform lists them. *)
Definition files : Type := list (string * node).

Fixpoint lookup (p : string) (m : files) : option node :=
  match m with
  | [] => None
  | (q, n) :: t => if (q =? p)%string then Some n else lookup p t
  end.

Fixpoint store (p : string) (n : node) (m : files) : files :=
  match m with
  | [] => [(p, n)]
  | (q, n') :: t =>
      if (q =? p)%string then (q, n) :: t else (q, n') :: store p n t
  end.

(** What a run does that can be observed from outside, oldest first. *)
Inductive event : Type :=
  | Printed (text : string)
  | ReadFile (path : string)
  | WroteFile (path : string) (text : string).

Record world : Type := mkWorld { fs : files; log : list event }.

Inductive exn : Type :=
  | FileNotFoundError (path : string)
  | NotADirectoryError (path : string)
  | IsADirectoryError (path : string).

Inductive outcome (A : Type) : Type :=
  | Ok (a : A)
  | Raise (e : exn).
Arguments Ok {A} a.
Arguments Raise {A} e.

(** Effectful code: a state transformer on the world that returns a value or
    raises; an exception leaves the effects made so far in place. *)
Definition io (A : Type) : Type := world -> outcome A * world.

Definition ret {A : Type} (a : A) : io A := fun w => (Ok a, w).

Definition bind {A B : Type} (c : io A) (k : A -> io B) : io B :=
  fun w =>
    match c w with
    | (Ok a, w') => k a w'
    | (Raise e, w') => (Raise e, w')
    end.

Notation "x <- c ;; k" := (bind c (fun x => k))
  (at level 61, c at next level, right associativity).
Notation "c ;; k" := (bind c (fun _ => k))
  (at level 61, right associativity).

Definition emit (e : event) (w : world) : world :=
  mkWorld (fs w) (log w ++ [e])%list.

(** [print(text)], on a console that takes every text: the embedding has no
    failing [print]. *)
Definition print (text : string) : io unit :=
  fun w => (Ok tt, emit (Printed text) w).

(** [Path(p).exists()] *)
Definition path_exists (p : string) : io bool :=
  fun w =>
    match lookup p (fs w) with
    | Some _ => (Ok true, w)
    | None => (Ok false, w)
    end.

(** The names that [Path(p).iterdir()] yields: the listing is taken once,
    when the [for] statement starts. *)
Definition iterdir (p : string) : io (list string) :=
  fun w =>
    match lookup p (fs w) with
    | Some (Dir names) => (Ok names, w)
    | Some (File _) => (Raise (NotADirectoryError p), w)
    | None => (Raise (FileNotFoundError p), w)
    end.

(** [with open(p, 'rb') as f: f.read()] *)
Definition read_bytes (p : string) : io (list byte) :=
  fun w =>
    match lookup p (fs w) with
    | Some (File data) => (Ok data, emit (ReadFile p) w)
    | Some (Dir _) => (Raise (IsADirectoryError p), w)
    | None => (Raise (FileNotFoundError p), w)
    end.

Definition add_name (name : string) (names : list string) : list string :=
  if str_in name names then names else (names ++ [name])%list.

(** The directory and the final component of a path, cut at its last
    separator; [None] for a path without separator (a file of the current
    directory). *)
Definition parent_of (p : string) : option (string * string) :=
  let i := rfind "/" p in
  if 0 <=? i then Some (slice_to i p, slice_from (i + 1) p) else None.

Definition put_file (p text : string) (m : files) (w : world) : world :=
  emit (WroteFile p text) (mkWorld (store p (File (list_byte_of_string text)) m) (log w)).

(** [with open(p, 'w') as f: f.write(text)]: the file is created or cut to
    nothing, then filled; a new file is listed last in its directory. *)
Definition write_text (p text : string) : io unit :=
  fun w =>
    match lookup p (fs w) with
    | Some (Dir _) => (Raise (IsADirectoryError p), w)
    | _ =>
        match parent_of p with
        | None => (Ok tt, put_file p text (fs w) w)
        | Some (parent, name) =>
            match lookup parent (fs w) with
            | Some (Dir names) =>
                (Ok tt,
                 put_file p text
                   (store parent (Dir (add_name name names)) (fs w)) w)
            | Some (File _) => (Raise (NotADirectoryError p), w)
            | None => (Raise (FileNotFoundError p), w)
            end
        end
    end.

(** The text of the file at [p], if a regular file is there. *)
Definition file_text (p : string) (w : world) : option string :=
  match lookup p (fs w) with
  | Some (File data) => Some (string_of_list_byte data)
  | _ => None
  end.

(** ** The general converter *)

Definition mime_types : dict :=
  [ ("png", "image/png");
    ("jpg", "image/jpeg");
    ("jpeg", "image/jpeg");
    ("gif", "image/gif");
    ("webp", "image/webp") ].

(** [os.path.splitext(image_path)[1][1:].lower()] *)
Definition ext_of (image_path : string) : string :=
  lower (slice_from 1 (snd (splitext image_path))).

Definition image_to_data_uri (image_path : string) : io string :=
  data <- read_bytes image_path ;;
  let encoded := b64encode data in
  let ext := ext_of image_path in
  let mime := dict_get_default mime_types ext "image/png" in
  ret ("data:" ++ mime ++ ";base64," ++ encoded).

Definition extensions : list string :=
  [".png"; ".jpg"; ".jpeg"; ".gif"; ".webp"].

Definition output_name : string := "converted_images.json".

(** The [for image_file in folder.iterdir()] loop over the listed names. *)
Fixpoint convert_loop (folder : string) (names : list string) (results : dict)
  : io dict :=
  match names with
  | [] => ret results
  | name :: rest =>
      if str_in (lower (suffix name)) extensions then
        print ("Converting: " ++ name) ;;
        data_uri <- image_to_data_uri (path_join folder name) ;;
        convert_loop folder rest (dict_set results name data_uri)
      else convert_loop folder rest results
  end.

Definition convert_all_images_in_folder (folder_path : string) : io unit :=
  let folder := folder_path in
  present <- path_exists folder ;;
  if negb present then
    print ("Error: Folder '" ++ folder_path ++ "' not found!")
  else
    names <- iterdir folder ;;
    results <- convert_loop folder names [] ;;
    let output_file := path_join folder output_name in
    write_text output_file (json_dumps results) ;;
    print (LF ++ "✓ Converted " ++ str_of_nat (List.length results) ++ " images") ;;
    print ("✓ Results saved to: " ++ output_file) ;;
    print (LF ++ "You can now copy the data URIs from the JSON file!").

(** The [if __name__ == "__main__":] block. *)
Definition main : io unit :=
  print "=== Single Image Example ===" ;;
  single_uri <- image_to_data_uri "glyphs/m_00.png" ;;
  print ("Data URI preview: " ++ slice_to 100 single_uri ++ "..." ++ LF) ;;
  print "=== Batch Conversion ===" ;;
  convert_all_images_in_folder "glyphs" ;;
  convert_all_images_in_folder "examples".

(** ** The fixed-folder script *)

Definition fixed_extensions : list string := [".png"; ".jpg"; ".jpeg"].

(** The entry that the loop body of the script builds for [name]. *)
Definition fixed_entry (name : string) (data : list byte) : string :=
  let encoded := b64encode data in
  let mime :=
    if (lower (suffix name) =? ".jpg")%string then "image/jpeg" else "image/png" in
  "data:" ++ mime ++ ";base64," ++ encoded.

Fixpoint fixed_loop (folder : string) (names : list string) (results : dict)
  : io dict :=
  match names with
  | [] => ret results
  | name :: rest =>
      if str_in (lower (suffix name)) fixed_extensions then
        data <- read_bytes (path_join folder name) ;;
        let results' := dict_set results name (fixed_entry name data) in
        print ("Converted: " ++ name) ;;
        fixed_loop folder rest results'
      else fixed_loop folder rest results
  end.

Definition fixed_folder_script : io unit :=
  let folder := "primary" in
  names <- iterdir folder ;;
  results <- fixed_loop folder names [] ;;
  write_text "examples/converted_images.json" (json_dumps results) ;;
  print (LF ++ "Done! Saved to examples/converted_images.json").

(** ** Reading a data URI back *)

(** The rest of [s] after the prefix [pre], if [s] starts with it. *)
Fixpoint strip_prefix (pre s : string) : option string :=
  match pre, s with
  | EmptyString, _ => Some s
  | String a pre', String b s' =>
      if Ascii.eqb a b then strip_prefix pre' s' else None
  | String _ _, EmptyString => None
  end.

(** The text after the first occurrence of [marker]. *)
Fixpoint after_first (marker s : string) : option string :=
  match strip_prefix marker s with
  | Some r => Some r
  | None =>
      match s with
      | EmptyString => None
      | String _ t => after_first marker t
      end
  end.

Fixpoint before_char (c : ascii) (s : string) : string :=
  match s with
  | EmptyString => EmptyString
  | String a t => if Ascii.eqb a c then EmptyString else String a (before_char c t)
  end.

(** The media type of a data URI: what stands between [data:] and the first
    semicolon. *)
Definition mime_segment (uri : string) : option string :=
  match strip_prefix "data:" uri with
  | Some r => Some (before_char ";" r)
  | None => None
  end.

(** The portion of a data URI after [base64,]. *)
Definition payload_of (uri : string) : option string :=
  after_first "base64," uri.

(** ASCII white space, as [str.isspace] has it. *)
Definition is_space (c : ascii) : bool :=
  let n := nat_of_ascii c in
  ((9 <=? n)%nat && (n <=? 13)%nat) || ((28 <=? n)%nat && (n <=? 32)%nat).

Fixpoint has_space (s : string) : bool :=
  match s with
  | EmptyString => false
  | String c t => is_space c || has_space t
  end.

(** The value of [image_to_data_uri] on a readable file with content [data]. *)
Definition encoded_uri (image_path : string) (data : list byte) : string :=
  "data:" ++ dict_get_default mime_types (ext_of image_path) "image/png"
          ++ ";base64," ++ b64encode data.

(** The world after a file [name] of the listed directory [folder] is
    written. *)
Definition written (folder name text : string) (names : list string) (w : world)
  : world :=
  put_file (path_join folder name) text
    (store folder (Dir (add_name name names)) (fs w)) w.

(** The world after the three closing notices of the converter. *)
Definition report (count : nat) (output_file : string) (w : world) : world :=
  emit (Printed (LF ++ "You can now copy the data URIs from the JSON file!"))
    (emit (Printed ("✓ Results saved to: " ++ output_file))
       (emit (Printed (LF ++ "✓ Converted " ++ str_of_nat count ++ " images")) w)).

(** The test of the loop on a listed name. *)
Definition accepted (name : string) : bool :=
  str_in (lower (suffix name)) extensions.

(** What the digit of one 6-bit value must satisfy: it decodes to the value,
    it is not the padding character and it is not white space. *)
Definition digit_ok (i : Z) : bool :=
  match a2b (b2a i) with
  | Some j =>
      (j =? i) && negb (Ascii.eqb (b2a i) pad_char) && negb (is_space (b2a i))
  | None => false
  end.

(** ** What a run leaves in the log *)

(** The events of the converter's loop over the listed names. *)
Definition loop_events (folder : string) (names : list string) : list event :=
  flat_map
    (fun name =>
       if accepted name
       then [Printed ("Converting: " ++ name); ReadFile (path_join folder name)]
       else [])
    names.

(** The events of the converter after its loop. *)
Definition closing_events (results : dict) (output_file : string) : list event :=
  [ WroteFile output_file (json_dumps results);
    Printed (LF ++ "✓ Converted " ++ str_of_nat (List.length results) ++ " images");
    Printed ("✓ Results saved to: " ++ output_file);
    Printed (LF ++ "You can now copy the data URIs from the JSON file!") ].

(** The test of the fixed-folder script on a listed name. *)
Definition fixed_accepted (name : string) : bool :=
  str_in (lower (suffix name)) fixed_extensions.

(** The events of the script's loop over the listed names. *)
Definition fixed_events (folder : string) (names : list string) : list event :=
  flat_map
    (fun name =>
       if fixed_accepted name
       then [ReadFile (path_join folder name); Printed ("Converted: " ++ name)]
       else [])
    names.

(** Characters that [py_encode_basestring_ascii] copies as they are. *)
Definition plain_char (c : ascii) : bool :=
  let n := nat_of_ascii c in
  (32 <=? n)%nat && (n <=? 126)%nat && negb (n =? 34)%nat && negb (n =? 92)%nat.

Fixpoint plain (s : string) : bool :=
  match s with
  | EmptyString => true
  | String c t => plain_char c && plain t
  end.

Fixpoint only_dots (s : string) : bool :=
  match s with
  | EmptyString => true
  | String c t => Ascii.eqb c "." && only_dots t
  end.

(** ** Extensions by their letters *)

Definition upper_char (c : ascii) : ascii :=
  let n := nat_of_ascii c in
  if (97 <=? n)%nat && (n <=? 122)%nat then ascii_of_nat (n - 32) else c.

(** [e] spells the lower-case [word] letter by letter, each letter in either
    case. *)
Fixpoint spelled (word e : string) : bool :=
  match word, e with
  | EmptyString, EmptyString => true
  | String p word', String c e' =>
      (Ascii.eqb c p || Ascii.eqb c (upper_char p)) && spelled word' e'
  | _, _ => false
  end.

Definition image_words : list string := ["png"; "jpg"; "jpeg"; "gif"; "webp"].

(** A name made of a stem that is not empty, a dot, and one of the five
    image extensions in any letter case. *)
Definition image_name (name : string) : Prop :=
  exists stem e word,
    name = stem ++ String "." e /\ stem <> "" /\
    In word image_words /\ spelled word e = true.

(** The text of a JSON object of strings, indented by two spaces, in which
    every value stands as it is between double quotes. *)
Definition object_text (d : dict) : string :=
  match d with
  | [] => "{}"
  | _ :: _ =>
      "{" ++ LF ++ "  "
          ++ String.concat ("," ++ LF ++ "  ")
               (map (fun kv =>
                       py_encode_basestring_ascii (fst kv) ++ ": "
                         ++ DQ ++ snd kv ++ DQ)
                    d)
          ++ LF ++ "}"
  end.

(** ** Sample worlds *)

(** A folder with one PNG image and one text file. *)
Definition two_files : world :=
  mkWorld
    [ ("glyphs", Dir ["a.png"; "b.txt"]);
      ("glyphs/a.png", File [x89; x50; x4e; x47]);
      ("glyphs/b.txt", File [x68; x69]) ]
    [].

(** A folder without images in which the name of the output file is taken
    by a sub-directory. *)
Definition name_taken : world :=
  mkWorld
    [ ("glyphs", Dir ["notes.txt"; "converted_images.json"]);
      ("glyphs/notes.txt", File [x68; x69]);
      ("glyphs/converted_images.json", Dir []) ]
    [].

(** The folders of the fixed-folder script, with one JPEG image named
    [a.jpeg]. *)
Definition one_jpeg : world :=
  mkWorld
    [ ("primary", Dir ["a.jpeg"]);
      ("primary/a.jpeg", File [xff; xd8; xff]);
      ("examples", Dir []) ]
    [].

(** A folder with an empty image file. *)
Definition empty_image : world :=
  mkWorld
    [ ("glyphs", Dir ["m_00.png"; "blank.GIF"]);
      ("glyphs/m_00.png", File [x89; x50; x4e; x47]);
      ("glyphs/blank.GIF", File []) ]
    [].

(** A folder in which the name [scan.png] is a sub-directory. *)
Definition folder_named_png : world :=
  mkWorld
    [ ("glyphs", Dir ["a.png"; "scan.png"]);
      ("glyphs/a.png", File [x89; x50; x4e; x47]);
      ("glyphs/scan.png", Dir []) ]
    [].

(** The sample image and its folder, without the folder [examples]. *)
Definition no_examples : world :=
  mkWorld
    [ ("glyphs", Dir ["m_00.png"; "README"]);
      ("glyphs/m_00.png", File [x89; x50; x4e; x47]);
      ("glyphs/README", File [x68; x69]) ]
    [].

(** The source folder of the script without its output folder. *)
Definition no_output_folder : world :=
  mkWorld
    [ ("primary", Dir ["a.jpg"; "b.gif"]);
      ("primary/a.jpg", File [xff; xd8; xff]);
      ("primary/b.gif", File [x47; x49; x46]) ]
    [].

(** Both folders of the script. *)
Definition script_folders : world :=
  mkWorld
    [ ("primary", Dir ["a.jpg"; "b.gif"; "C.PNG"]);
      ("primary/a.jpg", File [xff; xd8; xff]);
      ("primary/b.gif", File [x47; x49; x46]);
      ("primary/C.PNG", File []);
      ("examples", Dir ["old.txt"]);
      ("examples/old.txt", File [x68; x69]) ]
    [].

(* ================================================================== *)
(** * Properties *)

(** ** Arithmetic of the 24-bit groups *)

Lemma land_shifted_small (a b k : Z) :
  0 <= k -> 0 <= b < 2 ^ k -> Z.land (Z.shiftl a k) b = 0.
Proof.
  intros Hk Hb. apply Z.bits_inj'. intros i Hi.
  rewrite Z.land_spec, Z.bits_0.
  destruct (Z.ltb_spec i k) as [Hlt | Hge].
  - rewrite Z.shiftl_spec_low by assumption. reflexivity.
  - assert (Z.testbit b i = false) as ->; [| apply andb_false_r].
    destruct (Z.eq_dec b 0) as [-> | Hnz]; [apply Z.bits_0 |].
    apply Z.bits_above_log2; [lia |].
    apply Z.log2_lt_pow2; [lia |].
    apply Z.lt_le_trans with (2 ^ k); [lia |].
    apply Z.pow_le_mono_r; lia.
Qed.

Lemma lor_shifted_add (a b k : Z) :
  0 <= k -> 0 <= b < 2 ^ k -> Z.lor (Z.shiftl a k) b = a * 2 ^ k + b.
Proof.
  intros Hk Hb.
  rewrite <- Z.lxor_lor by (apply land_shifted_small; assumption).
  rewrite <- Z.add_nocarry_lxor by (apply land_shifted_small; assumption).
  rewrite Z.shiftl_mul_pow2 by assumption. reflexivity.
Qed.

Lemma sextet_div_mod (n k : Z) : 0 <= k -> sextet n k = (n / 2 ^ k) mod 64.
Proof.
  intros Hk. unfold sextet. rewrite Z.shiftr_div_pow2 by assumption.
  change 63 with (Z.ones 6). rewrite Z.land_ones by lia. reflexivity.
Qed.

Lemma sextet_range (n k : Z) : 0 <= k -> 0 <= sextet n k < 64.
Proof.
  intros Hk. rewrite sextet_div_mod by assumption. apply Z.mod_pos_bound. lia.
Qed.

Lemma shiftl_mul (a k : Z) : 0 <= k -> Z.shiftl a k = a * 2 ^ k.
Proof. intros Hk. apply Z.shiftl_mul_pow2. assumption. Qed.

Lemma group24_sum (a b c : Z) :
  0 <= b < 256 -> 0 <= c < 256 -> group24 a b c = a * 65536 + b * 256 + c.
Proof.
  intros Hb Hc. unfold group24.
  rewrite (shiftl_mul b 8) by lia. change (2 ^ 8) with 256.
  rewrite (lor_shifted_add a (b * 256) 16) by (change (2 ^ 16) with 65536; lia).
  change (2 ^ 16) with 65536.
  replace (a * 65536 + b * 256) with (Z.shiftl (a * 256 + b) 8)
    by (rewrite shiftl_mul by lia; change (2 ^ 8) with 256; lia).
  rewrite lor_shifted_add by (change (2 ^ 8) with 256; lia).
  rewrite ?shiftl_mul by lia. change (2 ^ 8) with 256. lia.
Qed.

Lemma ungroup24_sum (s0 s1 s2 s3 : Z) :
  0 <= s1 < 64 -> 0 <= s2 < 64 -> 0 <= s3 < 64 ->
  ungroup24 s0 s1 s2 s3 = s0 * 262144 + s1 * 4096 + s2 * 64 + s3.
Proof.
  intros H1 H2 H3. unfold ungroup24.
  rewrite (shiftl_mul s1 12) by lia. change (2 ^ 12) with 4096.
  rewrite (lor_shifted_add s0 (s1 * 4096) 18) by (change (2 ^ 18) with 262144; lia).
  change (2 ^ 18) with 262144.
  replace (s0 * 262144 + s1 * 4096) with (Z.shiftl (s0 * 64 + s1) 12)
    by (rewrite shiftl_mul by lia; change (2 ^ 12) with 4096; lia).
  rewrite (shiftl_mul s2 6) by lia. change (2 ^ 6) with 64.
  rewrite (lor_shifted_add (s0 * 64 + s1) (s2 * 64) 12)
    by (change (2 ^ 12) with 4096; lia).
  change (2 ^ 12) with 4096.
  replace ((s0 * 64 + s1) * 4096 + s2 * 64)
    with (Z.shiftl ((s0 * 64 + s1) * 64 + s2) 6)
    by (rewrite shiftl_mul by lia; change (2 ^ 6) with 64; lia).
  rewrite lor_shifted_add by (change (2 ^ 6) with 64; lia).
  rewrite ?shiftl_mul by lia. change (2 ^ 6) with 64. change (2 ^ 12) with 4096. lia.
Qed.

(** The four digits of a group put back together give the group. *)
Lemma regroup (n : Z) :
  0 <= n < 16777216 ->
  ungroup24 (sextet n 18) (sextet n 12) (sextet n 6) (sextet n 0) = n.
Proof.
  intros Hn.
  rewrite ungroup24_sum by (apply sextet_range; lia).
  rewrite !sextet_div_mod by lia.
  change (2 ^ 18) with 262144. change (2 ^ 12) with 4096.
  change (2 ^ 6) with 64. change (2 ^ 0) with 1.
  Z.to_euclidean_division_equations. lia.
Qed.

Lemma octet_div_mod (m k : Z) :
  0 <= k -> octet m k = byte_of_Z ((m / 2 ^ k) mod 256).
Proof.
  intros Hk. unfold octet. rewrite Z.shiftr_div_pow2 by assumption.
  change 255 with (Z.ones 8). rewrite Z.land_ones by lia. reflexivity.
Qed.

Lemma byte_range (b : byte) : 0 <= byte_to_Z b < 256.
Proof.
  unfold byte_to_Z. pose proof (Byte.to_N_bounded b) as H. lia.
Qed.

Lemma byte_of_to_Z (b : byte) : byte_of_Z (byte_to_Z b) = b.
Proof.
  unfold byte_of_Z, byte_to_Z. rewrite N2Z.id, Byte.of_to_N. reflexivity.
Qed.

Lemma byte_of_Z_eq (x : Z) (b : byte) : x = byte_to_Z b -> byte_of_Z x = b.
Proof. intros ->. apply byte_of_to_Z. Qed.

(** ** The base64 alphabet *)

Lemma digits_ok : forallb (fun n => digit_ok (Z.of_nat n)) (seq 0 64) = true.
Proof. vm_compute. reflexivity. Qed.

Lemma digit_ok_range (i : Z) : 0 <= i < 64 -> digit_ok i = true.
Proof.
  intros Hi. replace i with (Z.of_nat (Z.to_nat i)) by lia.
  apply (proj1 (forallb_forall _ _) digits_ok (Z.to_nat i)).
  apply in_seq. lia.
Qed.

Lemma a2b_b2a (i : Z) : 0 <= i < 64 -> a2b (b2a i) = Some i.
Proof.
  intros Hi. pose proof (digit_ok_range i Hi) as H. unfold digit_ok in H.
  destruct (a2b (b2a i)) as [j |]; [| discriminate].
  apply andb_prop in H. destruct H as [H _].
  apply andb_prop in H. destruct H as [H _].
  apply Z.eqb_eq in H. congruence.
Qed.

Lemma b2a_not_pad (i : Z) : 0 <= i < 64 -> Ascii.eqb (b2a i) pad_char = false.
Proof.
  intros Hi. pose proof (digit_ok_range i Hi) as H. unfold digit_ok in H.
  destruct (a2b (b2a i)) as [j |]; [| discriminate].
  apply andb_prop in H. destruct H as [H _].
  apply andb_prop in H. destruct H as [_ H].
  apply negb_true_iff in H. exact H.
Qed.

Lemma b2a_not_space (i : Z) : 0 <= i < 64 -> is_space (b2a i) = false.
Proof.
  intros Hi. pose proof (digit_ok_range i Hi) as H. unfold digit_ok in H.
  destruct (a2b (b2a i)) as [j |]; [| discriminate].
  apply andb_prop in H. destruct H as [_ H].
  apply negb_true_iff in H. exact H.
Qed.

Lemma a2b_digit (n k : Z) : 0 <= k -> a2b (digit n k) = Some (sextet n k).
Proof. intros Hk. apply a2b_b2a, sextet_range, Hk. Qed.

Lemma digit_not_pad (n k : Z) : 0 <= k -> Ascii.eqb (digit n k) pad_char = false.
Proof. intros Hk. apply b2a_not_pad, sextet_range, Hk. Qed.

(** ** Decoding one group *)

Lemma b64decode_group (c0 c1 c2 c3 : ascii) (rest : string) :
  b64decode (String c0 (String c1 (String c2 (String c3 rest)))) =
  match a2b c0, a2b c1 with
  | Some s0, Some s1 =>
      if Ascii.eqb c2 pad_char then
        if Ascii.eqb c3 pad_char && (rest =? "")%string then
          Some [octet (ungroup24 s0 s1 0 0) 16]
        else None
      else
        match a2b c2 with
        | None => None
        | Some s2 =>
            if Ascii.eqb c3 pad_char then
              if (rest =? "")%string then
                let m := ungroup24 s0 s1 s2 0 in
                Some [octet m 16; octet m 8]
              else None
            else
              match a2b c3, b64decode rest with
              | Some s3, Some tail =>
                  let m := ungroup24 s0 s1 s2 s3 in
                  Some (octet m 16 :: octet m 8 :: octet m 0 :: tail)
              | _, _ => None
              end
        end
  | _, _ => None
  end.
Proof. reflexivity. Qed.

Lemma octets_of_three (a b c : byte) :
  let n := group24 (byte_to_Z a) (byte_to_Z b) (byte_to_Z c) in
  let m := ungroup24 (sextet n 18) (sextet n 12) (sextet n 6) (sextet n 0) in
  octet m 16 = a /\ octet m 8 = b /\ octet m 0 = c.
Proof.
  intros n m.
  pose proof (byte_range a) as Ha. pose proof (byte_range b) as Hb.
  pose proof (byte_range c) as Hc.
  assert (Hn : n = byte_to_Z a * 65536 + byte_to_Z b * 256 + byte_to_Z c)
    by (apply group24_sum; assumption).
  assert (Hm : m = n) by (apply regroup; lia).
  rewrite Hm, Hn, !octet_div_mod by lia.
  change (2 ^ 16) with 65536. change (2 ^ 8) with 256. change (2 ^ 0) with 1.
  repeat split; apply byte_of_Z_eq; Z.to_euclidean_division_equations; lia.
Qed.

Lemma octets_of_two (a b : byte) :
  let n := group24 (byte_to_Z a) (byte_to_Z b) 0 in
  let m := ungroup24 (sextet n 18) (sextet n 12) (sextet n 6) 0 in
  octet m 16 = a /\ octet m 8 = b.
Proof.
  intros n m.
  pose proof (byte_range a) as Ha. pose proof (byte_range b) as Hb.
  assert (Hn : n = byte_to_Z a * 65536 + byte_to_Z b * 256 + 0)
    by (apply group24_sum; lia).
  assert (Hm : m = n).
  { unfold m. rewrite ungroup24_sum by (try apply sextet_range; lia).
    rewrite !sextet_div_mod by lia. rewrite Hn.
    change (2 ^ 18) with 262144. change (2 ^ 12) with 4096.
    change (2 ^ 6) with 64.
    Z.to_euclidean_division_equations. lia. }
  rewrite Hm, Hn, !octet_div_mod by lia.
  change (2 ^ 16) with 65536. change (2 ^ 8) with 256.
  repeat split; apply byte_of_Z_eq; Z.to_euclidean_division_equations; lia.
Qed.

Lemma octets_of_one (a : byte) :
  let n := group24 (byte_to_Z a) 0 0 in
  octet (ungroup24 (sextet n 18) (sextet n 12) 0 0) 16 = a.
Proof.
  intros n.
  pose proof (byte_range a) as Ha.
  assert (Hn : n = byte_to_Z a * 65536 + 0 * 256 + 0)
    by (apply group24_sum; lia).
  rewrite ungroup24_sum by (try apply sextet_range; lia).
  rewrite !sextet_div_mod, octet_div_mod by lia. rewrite Hn.
  change (2 ^ 18) with 262144. change (2 ^ 12) with 4096.
  change (2 ^ 16) with 65536.
  apply byte_of_Z_eq; Z.to_euclidean_division_equations; lia.
Qed.

Lemma list_ind3 {A : Type} (P : list A -> Prop) :
  P [] -> (forall a, P [a]) -> (forall a b, P [a; b]) ->
  (forall a b c l, P l -> P (a :: b :: c :: l)) ->
  forall l, P l.
Proof.
  intros H0 H1 H2 H3 l.
  enough (H : P l /\ (forall a, P (a :: l)) /\ (forall a b, P (a :: b :: l)))
    by apply H.
  induction l as [| x l IH].
  - repeat split; auto.
  - destruct IH as (IH0 & IH1 & IH2). repeat split; auto.
Qed.

(** Decoding undoes encoding, for every byte string. *)
Lemma b64_roundtrip (data : list byte) : b64decode (b64encode data) = Some data.
Proof.
  induction data as [| a | a b | a b c rest IH] using list_ind3.
  - reflexivity.
  - cbn [b64encode]. rewrite b64decode_group.
    rewrite !a2b_digit by lia. rewrite Ascii.eqb_refl. cbn [andb String.eqb].
    rewrite octets_of_one. reflexivity.
  - cbn [b64encode]. rewrite b64decode_group.
    rewrite !a2b_digit, !digit_not_pad by lia.
    rewrite Ascii.eqb_refl. cbn [String.eqb].
    destruct (octets_of_two a b) as [E1 E2]. cbv zeta. rewrite E1, E2.
    reflexivity.
  - cbn [b64encode]. rewrite b64decode_group.
    rewrite !a2b_digit, !digit_not_pad by lia. rewrite IH.
    destruct (octets_of_three a b c) as (E1 & E2 & E3). cbv zeta.
    rewrite E1, E2, E3. reflexivity.
Qed.

(** ** The text of a data URI *)

Lemma has_space_app (s t : string) :
  has_space (s ++ t) = has_space s || has_space t.
Proof.
  induction s as [| c s IH]; [reflexivity |].
  cbn [append has_space]. rewrite IH. apply orb_assoc.
Qed.

Lemma digit_not_space (n k : Z) : 0 <= k -> is_space (digit n k) = false.
Proof. intros Hk. apply b2a_not_space, sextet_range, Hk. Qed.

Lemma b64encode_no_space (data : list byte) : has_space (b64encode data) = false.
Proof.
  induction data as [| a | a b | a b c rest IH] using list_ind3;
    cbn [b64encode has_space]; rewrite ?digit_not_space by lia;
    rewrite ?IH; reflexivity.
Qed.

(** The media type looked up for an extension, case by case. *)
Lemma mime_table (ext : string) :
  let mime := dict_get_default mime_types ext "image/png" in
  (ext = "png" -> mime = "image/png") /\
  (ext = "jpg" -> mime = "image/jpeg") /\
  (ext = "jpeg" -> mime = "image/jpeg") /\
  (ext = "gif" -> mime = "image/gif") /\
  (ext = "webp" -> mime = "image/webp") /\
  (~ In ext ["png"; "jpg"; "jpeg"; "gif"; "webp"] -> mime = "image/png").
Proof.
  cbv zeta. repeat split; try (intros ->; reflexivity).
  intros Hout. unfold dict_get_default, mime_types. cbn [dict_get].
  repeat match goal with
         | |- context [String.eqb ?a ext] =>
             destruct (String.eqb_spec a ext) as [<- | _];
             [exfalso; apply Hout; cbn [In]; tauto |]
         end.
  reflexivity.
Qed.

Lemma mime_cases (ext : string) :
  In (dict_get_default mime_types ext "image/png")
     ["image/png"; "image/jpeg"; "image/gif"; "image/webp"].
Proof.
  unfold dict_get_default, mime_types. cbn [dict_get].
  repeat match goal with
         | |- context [String.eqb ?a ext] =>
             destruct (String.eqb a ext); [cbn [In]; auto 6 |]
         end.
  cbn [In]. auto.
Qed.

Lemma mime_supported (ext mime : string) :
  dict_get mime_types ext = Some mime ->
  In ext ["png"; "jpg"; "jpeg"; "gif"; "webp"] /\
  dict_get_default mime_types ext "image/png" = mime.
Proof.
  intros H. split.
  - revert H. unfold mime_types. cbn [dict_get].
    repeat match goal with
           | |- context [String.eqb ?a ext] =>
               destruct (String.eqb_spec a ext) as [<- | _];
               [intros _; cbn [In]; tauto |]
           end.
    discriminate.
  - unfold dict_get_default. rewrite H. reflexivity.
Qed.

Lemma supported_mime (ext : string) :
  In ext ["png"; "jpg"; "jpeg"; "gif"; "webp"] ->
  dict_get mime_types ext = Some (dict_get_default mime_types ext "image/png").
Proof.
  cbn [In]. intros [<- | [<- | [<- | [<- | [<- | []]]]]]; reflexivity.
Qed.

Section DataUri.

Variable mime : string.
Hypothesis mime_known :
  In mime ["image/png"; "image/jpeg"; "image/gif"; "image/webp"].
Variable encoded : string.

Lemma uri_mime_segment :
  mime_segment ("data:" ++ mime ++ ";base64," ++ encoded) = Some mime.
Proof.
  cbn [In] in mime_known.
  destruct mime_known as [<- | [<- | [<- | [<- | []]]]]; reflexivity.
Qed.

Lemma uri_payload :
  payload_of ("data:" ++ mime ++ ";base64," ++ encoded) = Some encoded.
Proof.
  cbn [In] in mime_known.
  destruct mime_known as [<- | [<- | [<- | [<- | []]]]]; reflexivity.
Qed.

Lemma uri_no_space :
  has_space encoded = false ->
  has_space ("data:" ++ mime ++ ";base64," ++ encoded) = false.
Proof.
  intros Henc. rewrite !has_space_app, Henc.
  cbn [In] in mime_known.
  destruct mime_known as [<- | [<- | [<- | [<- | []]]]]; reflexivity.
Qed.

End DataUri.

Lemma image_to_data_uri_file (image_path : string) (data : list byte) (w : world) :
  lookup image_path (fs w) = Some (File data) ->
  image_to_data_uri image_path w
  = (Ok (encoded_uri image_path data), emit (ReadFile image_path) w).
Proof.
  intros Hfile. unfold image_to_data_uri, bind, read_bytes.
  rewrite Hfile. reflexivity.
Qed.

(** The encoder returns a value exactly when a regular file is at the path. *)
Lemma image_to_data_uri_ok (image_path uri : string) (w w' : world) :
  image_to_data_uri image_path w = (Ok uri, w') ->
  exists data,
    lookup image_path (fs w) = Some (File data) /\
    uri = encoded_uri image_path data /\ w' = emit (ReadFile image_path) w.
Proof.
  unfold image_to_data_uri, bind, read_bytes.
  destruct (lookup image_path (fs w)) as [[data | names] |]; try discriminate.
  intros H. injection H as <- <-. exists data. auto.
Qed.

(** ** Paths and the file store *)

Lemma len_cons (c : ascii) (s : string) : len (String c s) = len s + 1.
Proof. unfold len. cbn [String.length]. lia. Qed.

Lemma len_nonneg (s : string) : 0 <= len s.
Proof. unfold len. lia. Qed.

Lemma rfind_app_sep (c : ascii) (s t : string) :
  rfind c t = -1 -> rfind c (s ++ String c t) = len s.
Proof.
  intros Ht. induction s as [| a s IH].
  - cbn [append rfind]. rewrite Ht, Ascii.eqb_refl. reflexivity.
  - cbn [append rfind]. rewrite IH, len_cons.
    pose proof (len_nonneg s) as Hs.
    destruct (Z.leb_spec 0 (len s)); [reflexivity | lia].
Qed.

Lemma str_take_app (s t : string) : str_take (String.length s) (s ++ t) = s.
Proof.
  induction s as [| a s IH]; [destruct t; reflexivity |].
  cbn [String.length append str_take]. rewrite IH. reflexivity.
Qed.

Lemma str_drop_app (s t : string) : str_drop (String.length s) (s ++ t) = t.
Proof. induction s as [| a s IH]; [reflexivity | exact IH]. Qed.

Lemma parent_of_join (folder name : string) :
  rfind "/" name = -1 -> parent_of (path_join folder name) = Some (folder, name).
Proof.
  intros Hname. unfold parent_of, path_join.
  change (folder ++ "/" ++ name) with (folder ++ String "/" name).
  rewrite rfind_app_sep by assumption.
  pose proof (len_nonneg folder) as Hlen.
  destruct (Z.leb_spec 0 (len folder)); [| lia].
  unfold slice_to, slice_from, len.
  rewrite Nat2Z.id.
  replace (Z.to_nat (Z.of_nat (String.length folder) + 1))
    with (S (String.length folder)) by lia.
  rewrite str_take_app.
  change (S (String.length folder))
    with (String.length (String "/" folder)).
  f_equal. f_equal.
  clear. induction folder as [| a s IH]; [reflexivity | exact IH].
Qed.

Lemma length_app (s t : string) :
  String.length (s ++ t) = (String.length s + String.length t)%nat.
Proof. induction s as [| a s IH]; cbn; [reflexivity | now rewrite IH]. Qed.

Lemma path_join_not_folder (folder name : string) : path_join folder name <> folder.
Proof.
  intros H. apply (f_equal String.length) in H. unfold path_join in H.
  rewrite !length_app in H. cbn [String.length] in H. lia.
Qed.

Lemma path_join_inj (folder a b : string) :
  path_join folder a = path_join folder b -> a = b.
Proof.
  unfold path_join. induction folder as [| c s IH]; cbn [append].
  - intros H. injection H as H. exact H.
  - intros H. injection H as H. exact (IH H).
Qed.

Lemma lookup_store_same (p : string) (n : node) (m : files) :
  lookup p (store p n m) = Some n.
Proof.
  induction m as [| [q n'] m IH]; cbn [store lookup].
  - rewrite String.eqb_refl. reflexivity.
  - destruct (String.eqb_spec q p) as [-> | Hne]; cbn [lookup].
    + rewrite String.eqb_refl. reflexivity.
    + destruct (String.eqb_spec q p); [contradiction | exact IH].
Qed.

Lemma lookup_store_other (p q : string) (n : node) (m : files) :
  p <> q -> lookup p (store q n m) = lookup p m.
Proof.
  intros Hpq. induction m as [| [k n'] m IH]; cbn [store lookup].
  - destruct (String.eqb_spec q p); [congruence | reflexivity].
  - destruct (String.eqb_spec k q) as [-> | Hne]; cbn [lookup].
    + destruct (String.eqb_spec q p); [congruence | reflexivity].
    + destruct (String.eqb_spec k p); [reflexivity | exact IH].
Qed.

Lemma output_name_plain : rfind "/" output_name = -1.
Proof. reflexivity. Qed.

Lemma output_name_skipped : accepted output_name = false.
Proof. reflexivity. Qed.

Lemma write_text_in_dir (folder name text : string) (names : list string) (w : world) :
  lookup folder (fs w) = Some (Dir names) ->
  rfind "/" name = -1 ->
  write_text (path_join folder name) text w =
  match lookup (path_join folder name) (fs w) with
  | Some (Dir _) => (Raise (IsADirectoryError (path_join folder name)), w)
  | _ => (Ok tt, written folder name text names w)
  end.
Proof.
  intros Hdir Hname. unfold write_text.
  rewrite parent_of_join by assumption. rewrite Hdir.
  destruct (lookup (path_join folder name) (fs w)) as [[data | l] |]; reflexivity.
Qed.

Lemma written_file_text (folder name text : string) (names : list string) (w : world) :
  file_text (path_join folder name) (written folder name text names w) = Some text.
Proof.
  unfold file_text, written, put_file, emit. cbn [fs].
  rewrite lookup_store_same, string_of_list_byte_of_string. reflexivity.
Qed.

Lemma written_folder (folder name text : string) (names : list string) (w : world) :
  lookup folder (fs (written folder name text names w))
  = Some (Dir (add_name name names)).
Proof.
  unfold written, put_file, emit. cbn [fs].
  rewrite lookup_store_other by (intros H; symmetry in H; revert H; apply path_join_not_folder).
  apply lookup_store_same.
Qed.

Lemma written_elsewhere (folder name text p : string) (names : list string) (w : world) :
  p <> folder -> p <> path_join folder name ->
  lookup p (fs (written folder name text names w)) = lookup p (fs w).
Proof.
  intros H1 H2. unfold written, put_file, emit. cbn [fs].
  rewrite !lookup_store_other by assumption. reflexivity.
Qed.

(** ** The loop of the converter *)

Lemma convert_loop_cons (folder name : string) (rest : list string)
      (results : dict) (w : world) :
  convert_loop folder (name :: rest) results w =
  if accepted name then
    let w1 := emit (Printed ("Converting: " ++ name)) w in
    match lookup (path_join folder name) (fs w) with
    | Some (File data) =>
        convert_loop folder rest
          (dict_set results name (encoded_uri (path_join folder name) data))
          (emit (ReadFile (path_join folder name)) w1)
    | Some (Dir _) => (Raise (IsADirectoryError (path_join folder name)), w1)
    | None => (Raise (FileNotFoundError (path_join folder name)), w1)
    end
  else convert_loop folder rest results w.
Proof.
  cbn [convert_loop]. unfold accepted.
  destruct (str_in (lower (suffix name)) extensions); [| reflexivity].
  unfold bind at 1. unfold print.
  unfold bind at 1. unfold image_to_data_uri, bind, read_bytes, ret.
  cbn [fs emit].
  destruct (lookup (path_join folder name) (fs w)) as [[data | l] |]; reflexivity.
Qed.

Lemma convert_loop_fs (folder : string) (names : list string) :
  forall results w, fs (snd (convert_loop folder names results w)) = fs w.
Proof.
  induction names as [| name rest IH]; intros results w; [reflexivity |].
  rewrite convert_loop_cons.
  destruct (accepted name); [| apply IH]. cbv zeta.
  destruct (lookup (path_join folder name) (fs w)) as [[data | l] |];
    [rewrite IH |..]; reflexivity.
Qed.

(** Names that the test rejects leave no trace. *)
Lemma convert_loop_none (folder : string) (names : list string)
      (results : dict) (w : world) :
  (forall name, In name names -> accepted name = false) ->
  convert_loop folder names results w = (Ok results, w).
Proof.
  induction names as [| name rest IH]; intros Hnone; [reflexivity |].
  rewrite convert_loop_cons, (Hnone name) by (left; reflexivity).
  apply IH. intros n Hn. apply Hnone. right. exact Hn.
Qed.

Lemma convert_loop_app (folder : string) (l1 l2 : list string) :
  forall results w,
    convert_loop folder (l1 ++ l2) results w =
    match convert_loop folder l1 results w with
    | (Ok r1, w1) => convert_loop folder l2 r1 w1
    | (Raise e, w1) => (Raise e, w1)
    end.
Proof.
  induction l1 as [| name rest IH]; intros results w; [reflexivity |].
  rewrite <- app_comm_cons, !convert_loop_cons.
  destruct (accepted name); [| apply IH]. cbv zeta.
  destruct (lookup (path_join folder name) (fs w)) as [[data | l] |];
    [apply IH |..]; reflexivity.
Qed.

(** The mapping that the loop returns depends on the accepted files only. *)
Lemma convert_loop_agree (folder : string) (names : list string) :
  forall results w1 w2,
    (forall name, In name names -> accepted name = true ->
       lookup (path_join folder name) (fs w1)
       = lookup (path_join folder name) (fs w2)) ->
    fst (convert_loop folder names results w1)
    = fst (convert_loop folder names results w2).
Proof.
  induction names as [| name rest IH]; intros results w1 w2 Hsame; [reflexivity |].
  rewrite !convert_loop_cons.
  assert (Hrest : forall n, In n rest -> accepted n = true ->
            lookup (path_join folder n) (fs w1) = lookup (path_join folder n) (fs w2))
    by (intros n Hn; apply Hsame; right; exact Hn).
  destruct (accepted name) eqn:Hacc; [| apply IH; exact Hrest]. cbv zeta.
  rewrite <- (Hsame name) by (try left; auto).
  destruct (lookup (path_join folder name) (fs w1)) as [[data | l] |];
    [apply IH; exact Hrest |..]; reflexivity.
Qed.

(** The loop goes through when every accepted name is a regular file. *)
Lemma convert_loop_total (folder : string) (names : list string) :
  forall results w,
    (forall name, In name names -> accepted name = true ->
       exists data, lookup (path_join folder name) (fs w) = Some (File data)) ->
    exists results' w', convert_loop folder names results w = (Ok results', w').
Proof.
  induction names as [| name rest IH]; intros results w Hfiles.
  - exists results, w. reflexivity.
  - rewrite convert_loop_cons.
    assert (Hrest : forall w', fs w' = fs w ->
              forall n, In n rest -> accepted n = true ->
                exists data, lookup (path_join folder n) (fs w') = Some (File data))
      by (intros w' -> n Hn; apply Hfiles; right; exact Hn).
    destruct (accepted name) eqn:Hacc; [| apply IH, (Hrest w eq_refl)].
    cbv zeta.
    destruct (Hfiles name (or_introl eq_refl) Hacc) as [data ->].
    apply IH, Hrest. reflexivity.
Qed.

Lemma dict_get_set_same (d : dict) (k v : string) :
  dict_get (dict_set d k v) k = Some v.
Proof.
  induction d as [| [k' v'] d IH]; cbn [dict_set dict_get].
  - rewrite String.eqb_refl. reflexivity.
  - destruct (String.eqb_spec k' k) as [-> | Hne]; cbn [dict_get].
    + rewrite String.eqb_refl. reflexivity.
    + destruct (String.eqb_spec k' k); [contradiction | exact IH].
Qed.

Lemma dict_get_set_other (d : dict) (k k0 v : string) :
  k0 <> k -> dict_get (dict_set d k v) k0 = dict_get d k0.
Proof.
  intros Hne. induction d as [| [k' v'] d IH]; cbn [dict_set dict_get].
  - destruct (String.eqb_spec k k0); [congruence | reflexivity].
  - destruct (String.eqb_spec k' k) as [-> | Hk]; cbn [dict_get].
    + destruct (String.eqb_spec k k0); [congruence | reflexivity].
    + destruct (String.eqb_spec k' k0); [reflexivity | exact IH].
Qed.

Lemma dict_get_keys (d : dict) (k : string) :
  In k (dict_keys d) <-> dict_get d k <> None.
Proof.
  unfold dict_keys. induction d as [| [k' v'] d IH]; cbn [map fst In dict_get].
  - split; [intros [] | intros H; apply H; reflexivity].
  - destruct (String.eqb_spec k' k) as [-> | Hne].
    + split; [discriminate | auto].
    + rewrite <- IH. split; [intros [H | H]; [contradiction | exact H] | auto].
Qed.

(** What the returned mapping holds for a key: the data URI of the file of
    that name when the name was listed and accepted, and what the mapping
    held before otherwise. *)
Lemma convert_loop_entries (folder : string) (names : list string) :
  forall results w results' w',
    convert_loop folder names results w = (Ok results', w') ->
    forall k,
      (In k names /\ accepted k = true /\
       exists data,
         lookup (path_join folder k) (fs w) = Some (File data) /\
         dict_get results' k = Some (encoded_uri (path_join folder k) data))
      \/
      (~ (In k names /\ accepted k = true) /\
       dict_get results' k = dict_get results k).
Proof.
  induction names as [| name rest IH]; intros results w results' w' Hrun k.
  - injection Hrun as <- <-. right. split; [intros [[] _] | reflexivity].
  - rewrite convert_loop_cons in Hrun.
    destruct (accepted name) eqn:Hacc.
    + cbv zeta in Hrun.
      destruct (lookup (path_join folder name) (fs w)) as [[data | l] |] eqn:Hfile;
        try discriminate.
      destruct (IH _ _ _ _ Hrun k) as [(Hin & Hk & d & Hd & Hget) | (Hnot & Hget)].
      * left. repeat split; [right; exact Hin | exact Hk |].
        exists d. split; [exact Hd | exact Hget].
      * destruct (String.eqb_spec k name) as [-> | Hne].
        -- left. repeat split; [left; reflexivity | exact Hacc |].
           exists data. split; [exact Hfile |].
           rewrite Hget. apply dict_get_set_same.
        -- right. split.
           ++ intros [[Heq | Hin] Hk]; [congruence | apply Hnot; auto].
           ++ rewrite Hget. apply dict_get_set_other. exact Hne.
    + destruct (IH _ _ _ _ Hrun k) as [(Hin & Hk & d & Hd & Hget) | (Hnot & Hget)].
      * left. repeat split; [right; exact Hin | exact Hk |].
        exists d. split; [exact Hd | exact Hget].
      * right. split; [| exact Hget].
        intros [[Heq | Hin] Hk]; [congruence | apply Hnot; auto].
Qed.

(** ** The converter on a directory *)

Lemma convert_dir (folder : string) (names : list string) (w : world) :
  lookup folder (fs w) = Some (Dir names) ->
  convert_all_images_in_folder folder w =
  match convert_loop folder names [] w with
  | (Ok results, w1) =>
      match lookup (path_join folder output_name) (fs w) with
      | Some (Dir _) =>
          (Raise (IsADirectoryError (path_join folder output_name)), w1)
      | _ =>
          (Ok tt,
           report (List.length results) (path_join folder output_name)
             (written folder output_name (json_dumps results) names w1))
      end
  | (Raise e, w1) => (Raise e, w1)
  end.
Proof.
  intros Hdir. unfold convert_all_images_in_folder.
  unfold bind at 1. unfold path_exists. rewrite Hdir. cbn [negb].
  unfold bind at 1. unfold iterdir. rewrite Hdir.
  unfold bind at 1.
  pose proof (convert_loop_fs folder names [] w) as Hfs.
  destruct (convert_loop folder names [] w) as [[results | e] w1]; [| reflexivity].
  cbn [snd] in Hfs.
  unfold bind at 1.
  rewrite (write_text_in_dir folder output_name _ names w1)
    by (rewrite ?Hfs; auto using output_name_plain).
  rewrite Hfs.
  destruct (lookup (path_join folder output_name) (fs w)) as [[data | l] |];
    reflexivity.
Qed.

Lemma accepted_iff (name : string) :
  accepted name = true <->
  In (lower (suffix name)) [".png"; ".jpg"; ".jpeg"; ".gif"; ".webp"].
Proof.
  unfold accepted, str_in. rewrite existsb_exists. split.
  - intros (e & He & Heq). apply String.eqb_eq in Heq. subst e. exact He.
  - intros He. exists (lower (suffix name)). split; [exact He | apply String.eqb_refl].
Qed.


(** ** The suffix of pathlib and the extension of os.path *)

Lemma rfind_app_found (c : ascii) (s t : string) :
  0 <= rfind c t -> rfind c (s ++ t) = len s + rfind c t.
Proof.
  intros Ht. induction s as [| a s IH].
  - cbn [append]. unfold len. cbn [String.length]. lia.
  - cbn [append rfind]. rewrite IH, len_cons.
    pose proof (len_nonneg s) as Hs.
    destruct (Z.leb_spec 0 (len s + rfind c t)); lia.
Qed.

Lemma str_drop_past (s t : string) (n : nat) :
  str_drop (String.length s + n) (s ++ t) = str_drop n t.
Proof. induction s as [| a s IH]; [reflexivity | exact IH]. Qed.

Lemma lower_str_drop (n : nat) (s : string) :
  lower (str_drop n s) = str_drop n (lower s).
Proof.
  revert s. induction n as [| n IH]; intros s; [reflexivity |].
  destruct s as [| c s]; [reflexivity | apply IH].
Qed.

(** For a listed name that does not start with a dot, [os.path.splitext] on
    the joined path finds the suffix that pathlib finds on the name. *)
Lemma splitext_of_entry (folder name rest : string) (c : ascii) :
  name = String c rest -> c <> "."%char -> rfind "/" name = -1 ->
  suffix name <> "" ->
  snd (splitext (path_join folder name)) = suffix name.
Proof.
  intros Hname Hc Hsep Hsuf. unfold suffix in *.
  set (i := rfind "." name) in *.
  destruct ((0 <? i) && (i <? len name - 1)) eqn:Hi; [| contradiction].
  apply andb_prop in Hi. destruct Hi as [Hlo _]. apply Z.ltb_lt in Hlo.
  unfold splitext, path_join.
  change (folder ++ "/" ++ name) with (folder ++ String "/" name).
  rewrite rfind_app_sep by assumption.
  assert (Hdot : rfind "." (String "/" name) = i + 1).
  { cbn [rfind]. fold i. destruct (Z.leb_spec 0 i); [reflexivity | lia]. }
  rewrite rfind_app_found by (rewrite Hdot; lia). rewrite Hdot.
  pose proof (len_nonneg folder) as Hlen.
  destruct (Z.ltb_spec (len folder) (len folder + (i + 1))); [| lia].
  replace (Z.to_nat (len folder + (i + 1) - (len folder + 1)))
    with (S (Z.to_nat (i - 1))) by lia.
  cbn [splitext_scan].
  assert (Hfirst : slice_at (len folder + 1) (folder ++ String "/" name)
                   = String c "").
  { unfold slice_at, len.
    replace (Z.to_nat (Z.of_nat (String.length folder) + 1))
      with (String.length folder + 1)%nat by lia.
    rewrite str_drop_past, Hname. reflexivity. }
  rewrite Hfirst.
  assert (Hne : (String c "" =? ".")%string = false).
  { apply String.eqb_neq. intros Heq. injection Heq as Heq. contradiction. }
  rewrite Hne. cbn [negb snd]. unfold slice_from, len.
  replace (Z.to_nat (Z.of_nat (String.length folder) + (i + 1)))
    with (String.length folder + S (Z.to_nat i))%nat by lia.
  rewrite str_drop_past. reflexivity.
Qed.

Lemma ext_of_entry (folder name rest : string) (c : ascii) :
  name = String c rest -> c <> "."%char -> rfind "/" name = -1 ->
  suffix name <> "" ->
  ext_of (path_join folder name) = slice_from 1 (lower (suffix name)).
Proof.
  intros Hname Hc Hsep Hsuf. unfold ext_of.
  rewrite (splitext_of_entry folder name rest c) by assumption.
  apply lower_str_drop.
Qed.

(** Where the script and the encoder agree: names in [.png] and [.jpg]. *)
Lemma fixed_entry_agrees (folder name rest : string) (c : ascii) (data : list byte) :
  name = String c rest -> c <> "."%char -> rfind "/" name = -1 ->
  In (lower (suffix name)) [".png"; ".jpg"] ->
  fixed_entry name data = encoded_uri (path_join folder name) data.
Proof.
  intros Hname Hc Hsep Hin. unfold fixed_entry, encoded_uri.
  assert (Hsuf : suffix name <> "").
  { intros H. rewrite H in Hin. cbn in Hin.
    destruct Hin as [H' | [H' | []]]; discriminate. }
  rewrite (ext_of_entry folder name rest c) by assumption.
  cbn [In] in Hin. destruct Hin as [<- | [<- | []]]; reflexivity.
Qed.

(** Where they differ: every such name in [.jpeg]. *)
Lemma fixed_entry_jpeg (folder name rest : string) (c : ascii) (data : list byte) :
  name = String c rest -> c <> "."%char -> rfind "/" name = -1 ->
  lower (suffix name) = ".jpeg" ->
  fixed_entry name data = "data:image/png;base64," ++ b64encode data /\
  encoded_uri (path_join folder name) data
  = "data:image/jpeg;base64," ++ b64encode data.
Proof.
  intros Hname Hc Hsep Hjpeg. unfold fixed_entry, encoded_uri.
  assert (Hsuf : suffix name <> "").
  { intros H. rewrite H in Hjpeg. discriminate. }
  rewrite (ext_of_entry folder name rest c) by assumption.
  rewrite Hjpeg. split; reflexivity.
Qed.

(** The folder of the specification's example: the mapping written has the
    one key [a.png]. *)
Example two_files_output :
  file_text "glyphs/converted_images.json"
    (snd (convert_all_images_in_folder "glyphs" two_files))
  = Some (json_dumps [("a.png", "data:image/png;base64,iVBORw==")]).
Proof. vm_compute. reflexivity. Qed.

(* ================================================================== *)
(** * The claims *)

(** C1 (code evaluated at the failing input).  For the file [primary/a.jpeg]
    the fixed-folder script records an [image/png] data URI, while
    [image_to_data_uri] on the same file, and the general converter on the
    same folder, give an [image/jpeg] one; the same bytes under the names
    [a.jpg] and [a.png] get the same entry on both paths. *)
Theorem C1_jpeg_entry_differs :
  let data := [xff; xd8; xff] in
  fixed_entry "a.jpeg" data = "data:image/png;base64,/9j/" /\
  fst (image_to_data_uri "primary/a.jpeg" one_jpeg)
    = Ok "data:image/jpeg;base64,/9j/" /\
  file_text "examples/converted_images.json" (snd (fixed_folder_script one_jpeg))
    = Some (json_dumps [("a.jpeg", "data:image/png;base64,/9j/")]) /\
  file_text "primary/converted_images.json"
    (snd (convert_all_images_in_folder "primary" one_jpeg))
    = Some (json_dumps [("a.jpeg", "data:image/jpeg;base64,/9j/")]) /\
  fixed_entry "a.jpg" data = encoded_uri "primary/a.jpg" data /\
  fixed_entry "a.png" data = encoded_uri "primary/a.png" data.
Proof. vm_compute. repeat split; reflexivity. Qed.

(** C3.  For a file with a supported extension and any content, the string
    that [image_to_data_uri] returns is [data:<mime>;base64,<encoded>] with
    the media type of the table and without white space, and decoding what
    follows [base64,] gives the content back. *)
Theorem C3_data_uri_round_trip (image_path : string) (data : list byte) (w : world) :
  lookup image_path (fs w) = Some (File data) ->
  In (ext_of image_path) ["png"; "jpg"; "jpeg"; "gif"; "webp"] ->
  exists mime uri encoded,
    fst (image_to_data_uri image_path w) = Ok uri /\
    dict_get mime_types (ext_of image_path) = Some mime /\
    uri = "data:" ++ mime ++ ";base64," ++ encoded /\
    has_space uri = false /\
    payload_of uri = Some encoded /\
    b64decode encoded = Some data.
Proof.
  intros Hfile Hext.
  exists (dict_get_default mime_types (ext_of image_path) "image/png"),
         (encoded_uri image_path data), (b64encode data).
  rewrite (image_to_data_uri_file _ _ _ Hfile).
  pose proof (mime_cases (ext_of image_path)) as Hmime.
  repeat split.
  - apply supported_mime, Hext.
  - apply uri_no_space; [exact Hmime | apply b64encode_no_space].
  - apply uri_payload, Hmime.
  - apply b64_roundtrip.
Qed.

Lemma C3_data_uri_round_trip_witness :
  exists mime uri encoded,
    fst (image_to_data_uri "glyphs/a.png" two_files) = Ok uri /\
    dict_get mime_types (ext_of "glyphs/a.png") = Some mime /\
    uri = "data:" ++ mime ++ ";base64," ++ encoded /\
    has_space uri = false /\
    payload_of uri = Some encoded /\
    b64decode encoded = Some [x89; x50; x4e; x47].
Proof.
  apply (C3_data_uri_round_trip "glyphs/a.png" [x89; x50; x4e; x47] two_files).
  - reflexivity.
  - vm_compute. left. reflexivity.
Defined.

(** C4.  On a path at which nothing exists, [convert_all_images_in_folder]
    prints [Error: Folder '<path>' not found!] and nothing else, leaves the
    file system as it is, reads and writes no file, and returns normally, so
    that whatever follows it runs. *)
Theorem C4_missing_folder (folder_path : string) (w : world) :
  lookup folder_path (fs w) = None ->
  let notice := Printed ("Error: Folder '" ++ folder_path ++ "' not found!") in
  convert_all_images_in_folder folder_path w
    = (Ok tt, mkWorld (fs w) (log w ++ [notice])) /\
  forall (A : Type) (next : io A),
    (convert_all_images_in_folder folder_path ;; next) w
    = next (mkWorld (fs w) (log w ++ [notice])).
Proof.
  intros Hnone notice.
  assert (Hrun : convert_all_images_in_folder folder_path w
                 = (Ok tt, mkWorld (fs w) (log w ++ [notice]))).
  { unfold convert_all_images_in_folder, bind, path_exists.
    rewrite Hnone. reflexivity. }
  split; [exact Hrun |].
  intros A next. unfold bind at 1. rewrite Hrun. reflexivity.
Qed.

Lemma C4_missing_folder_witness :
  let notice := Printed ("Error: Folder '" ++ "examples" ++ "' not found!") in
  convert_all_images_in_folder "examples" two_files
    = (Ok tt, mkWorld (fs two_files) (log two_files ++ [notice])) /\
  forall (A : Type) (next : io A),
    (convert_all_images_in_folder "examples" ;; next) two_files
    = next (mkWorld (fs two_files) (log two_files ++ [notice])).
Proof. apply (C4_missing_folder "examples" two_files). reflexivity. Defined.

(** The second of two runs lists one more name at most, the output file,
    which the test rejects. *)
Lemma convert_loop_relisted (folder : string) (names : list string)
      (results : dict) (w : world) :
  fst (convert_loop folder (add_name output_name names) results w)
  = fst (convert_loop folder names results w).
Proof.
  unfold add_name. destruct (str_in output_name names); [reflexivity |].
  rewrite convert_loop_app.
  destruct (convert_loop folder names results w) as [[r | e] w1]; [| reflexivity].
  rewrite convert_loop_cons, output_name_skipped. reflexivity.
Qed.

(** C6.  A second run of [convert_all_images_in_folder], on the world that a
    first run on a directory leaves, goes through as well and writes the
    same text to the output file: the [converted_images.json] that the first
    run put in the folder adds nothing to the mapping. *)
Theorem C6_second_run_same_output
        (folder_path : string) (names : list string) (w w1 : world) :
  lookup folder_path (fs w) = Some (Dir names) ->
  convert_all_images_in_folder folder_path w = (Ok tt, w1) ->
  let output_file := path_join folder_path output_name in
  exists text w2,
    file_text output_file w1 = Some text /\
    lookup folder_path (fs w1) = Some (Dir (add_name output_name names)) /\
    convert_all_images_in_folder folder_path w1 = (Ok tt, w2) /\
    file_text output_file w2 = Some text.
Proof.
  intros Hdir Hrun output_file.
  rewrite (convert_dir _ _ _ Hdir) in Hrun.
  pose proof (convert_loop_fs folder_path names [] w) as Hfs.
  destruct (convert_loop folder_path names [] w) as [[results | e] wl] eqn:Hloop;
    [| discriminate].
  cbn [snd] in Hfs.
  set (text := json_dumps results).
  assert (Hw1 : w1 = report (List.length results) output_file
                       (written folder_path output_name text names wl)).
  { fold output_file in Hrun.
    destruct (lookup output_file (fs w)) as [[data | l] |];
      try discriminate; injection Hrun as <-; reflexivity. }
  clear Hrun.
  assert (Hdir1 : lookup folder_path (fs w1)
                  = Some (Dir (add_name output_name names)))
    by (rewrite Hw1; apply written_folder).
  assert (Hout1 : lookup output_file (fs w1)
                  = Some (File (list_byte_of_string text)))
    by (rewrite Hw1; apply lookup_store_same).
  assert (Hsame : forall name, In name names -> accepted name = true ->
            lookup (path_join folder_path name) (fs w1)
            = lookup (path_join folder_path name) (fs w)).
  { intros name _ Hacc. rewrite Hw1, <- Hfs.
    apply written_elsewhere; [apply path_join_not_folder |].
    intros Heq. apply path_join_inj in Heq. subst name.
    rewrite output_name_skipped in Hacc. discriminate. }
  assert (Hloop1 : fst (convert_loop folder_path (add_name output_name names) [] w1)
                   = Ok results).
  { rewrite convert_loop_relisted.
    rewrite (convert_loop_agree folder_path names [] w1 w Hsame), Hloop.
    reflexivity. }
  exists text.
  rewrite (convert_dir _ _ _ Hdir1). fold output_file. rewrite Hout1.
  destruct (convert_loop folder_path (add_name output_name names) [] w1)
    as [[r | e] wl1]; cbn [fst] in Hloop1; [| discriminate].
  injection Hloop1 as ->.
  eexists. split; [| split; [exact Hdir1 | split; [reflexivity |]]].
  - rewrite Hw1. apply written_file_text.
  - apply written_file_text.
Qed.

Lemma C6_second_run_same_output_witness :
  let w1 := snd (convert_all_images_in_folder "glyphs" two_files) in
  exists text w2,
    file_text "glyphs/converted_images.json" w1 = Some text /\
    lookup "glyphs" (fs w1) = Some (Dir (add_name output_name ["a.png"; "b.txt"])) /\
    convert_all_images_in_folder "glyphs" w1 = (Ok tt, w2) /\
    file_text "glyphs/converted_images.json" w2 = Some text.
Proof.
  apply (C6_second_run_same_output "glyphs" ["a.png"; "b.txt"] two_files).
  - reflexivity.
  - vm_compute. reflexivity.
Defined.

(** C7 as stated fails: in the folder of [name_taken] no listed name is
    accepted, yet the run raises [IsADirectoryError] when it opens the output
    file, and no JSON file is there afterwards. *)
Lemma C7_name_taken_counterexample :
  lookup "glyphs" (fs name_taken)
    = Some (Dir ["notes.txt"; "converted_images.json"]) /\
  (forall name, In name ["notes.txt"; "converted_images.json"] ->
                accepted name = false) /\
  convert_all_images_in_folder "glyphs" name_taken
    = (Raise (IsADirectoryError "glyphs/converted_images.json"), name_taken) /\
  ~ (exists w',
        convert_all_images_in_folder "glyphs" name_taken = (Ok tt, w') /\
        file_text "glyphs/converted_images.json" w' = Some "{}").
Proof.
  split; [reflexivity |]. split.
  - intros name [<- | [<- | []]]; reflexivity.
  - split; [vm_compute; reflexivity |].
    intros (w' & Hrun & _). vm_compute in Hrun. discriminate.
Qed.

(** C7 (amended).  On a directory in which no listed name is accepted and
    the name of the output file is not taken by a directory,
    [convert_all_images_in_folder] reads nothing, writes the empty object
    [{}] to [converted_images.json] in that directory and reports that it
    converted 0 images. *)
Theorem C7_no_images (folder_path : string) (names : list string) (w : world) :
  lookup folder_path (fs w) = Some (Dir names) ->
  (forall name, In name names -> accepted name = false) ->
  let output_file := path_join folder_path output_name in
  (forall l, lookup output_file (fs w) <> Some (Dir l)) ->
  exists w',
    convert_all_images_in_folder folder_path w = (Ok tt, w') /\
    file_text output_file w' = Some "{}" /\
    log w' = (log w ++
              [ WroteFile output_file "{}";
                Printed (LF ++ "✓ Converted 0 images");
                Printed ("✓ Results saved to: " ++ output_file);
                Printed (LF ++ "You can now copy the data URIs from the JSON file!") ])%list.
Proof.
  intros Hdir Hnone output_file Hfree.
  rewrite (convert_dir _ _ _ Hdir), (convert_loop_none _ _ _ _ Hnone).
  fold output_file.
  assert (Hdone :
    let w' := report 0 output_file (written folder_path output_name "{}" names w) in
    file_text output_file w' = Some "{}" /\
    log w' = (log w ++
              [ WroteFile output_file "{}";
                Printed (LF ++ "✓ Converted 0 images");
                Printed ("✓ Results saved to: " ++ output_file);
                Printed (LF ++ "You can now copy the data URIs from the JSON file!") ])%list).
  { split; [apply written_file_text |].
    unfold report, written, put_file, emit. cbn [log fs].
    rewrite <- !app_assoc. reflexivity. }
  destruct (lookup output_file (fs w)) as [[data | l] |] eqn:Hout.
  - eexists. split; [reflexivity | exact Hdone].
  - exfalso. exact (Hfree l eq_refl).
  - eexists. split; [reflexivity | exact Hdone].
Qed.

Lemma C7_no_images_witness :
  let w := mkWorld [("glyphs", Dir ["notes.txt"]); ("glyphs/notes.txt", File [x68; x69])] [] in
  let output_file := path_join "glyphs" output_name in
  exists w',
    convert_all_images_in_folder "glyphs" w = (Ok tt, w') /\
    file_text output_file w' = Some "{}" /\
    log w' = (log w ++
              [ WroteFile output_file "{}";
                Printed (LF ++ "✓ Converted 0 images");
                Printed ("✓ Results saved to: " ++ output_file);
                Printed (LF ++ "You can now copy the data URIs from the JSON file!") ])%list.
Proof.
  intros w.
  apply (C7_no_images "glyphs" ["notes.txt"] w).
  - reflexivity.
  - intros name [<- | []]. reflexivity.
  - intros l. vm_compute. discriminate.
Defined.

(** C8.  The fixed-folder script does not test whether [primary] exists: when
    it is absent the listing raises [FileNotFoundError], nothing in the
    script catches it and the script ends there, having printed and written
    nothing; the general converter on the same path returns normally after
    its notice. *)
Theorem C8_fixed_folder_unchecked (w : world) :
  lookup "primary" (fs w) = None ->
  fixed_folder_script w = (Raise (FileNotFoundError "primary"), w) /\
  fst (convert_all_images_in_folder "primary" w) = Ok tt.
Proof.
  intros Habsent. split.
  - unfold fixed_folder_script, bind, iterdir. rewrite Habsent. reflexivity.
  - unfold convert_all_images_in_folder, bind, path_exists.
    rewrite Habsent. reflexivity.
Qed.

Lemma C8_fixed_folder_unchecked_witness :
  fixed_folder_script two_files = (Raise (FileNotFoundError "primary"), two_files) /\
  fst (convert_all_images_in_folder "primary" two_files) = Ok tt.
Proof. apply (C8_fixed_folder_unchecked two_files). reflexivity. Defined.

(** C9.  The guard of [convert_all_images_in_folder] tests existence only:
    on a path that names a regular file it lets the run pass, no notice is
    printed, and the listing raises [NotADirectoryError], which nothing
    catches; the world is as before, so no output file is written. *)
Theorem C9_regular_file_as_folder
        (folder_path : string) (data : list byte) (w : world) :
  lookup folder_path (fs w) = Some (File data) ->
  fst (path_exists folder_path w) = Ok true /\
  convert_all_images_in_folder folder_path w
    = (Raise (NotADirectoryError folder_path), w).
Proof.
  intros Hfile. split.
  - unfold path_exists. rewrite Hfile. reflexivity.
  - unfold convert_all_images_in_folder, bind, path_exists, iterdir.
    rewrite Hfile. cbn [negb]. rewrite Hfile. reflexivity.
Qed.

Lemma C9_regular_file_as_folder_witness :
  fst (path_exists "glyphs/b.txt" two_files) = Ok true /\
  convert_all_images_in_folder "glyphs/b.txt" two_files
    = (Raise (NotADirectoryError "glyphs/b.txt"), two_files).
Proof.
  apply (C9_regular_file_as_folder "glyphs/b.txt" [x68; x69] two_files).
  reflexivity.
Defined.

(** C10.  On a regular file without content and with a supported extension
    [image_to_data_uri] returns [data:<mime>;base64,] with nothing after the
    comma; and when that file is an accepted entry of a directory on which
    [convert_all_images_in_folder] runs to its end, the mapping written
    holds that string under the name of the entry. *)
Theorem C10_empty_image_file (image_path mime : string) (w : world) :
  lookup image_path (fs w) = Some (File []) ->
  dict_get mime_types (ext_of image_path) = Some mime ->
  image_to_data_uri image_path w
    = (Ok ("data:" ++ mime ++ ";base64,"), emit (ReadFile image_path) w) /\
  forall (folder_path name : string) (names : list string) (w' : world),
    image_path = path_join folder_path name ->
    lookup folder_path (fs w) = Some (Dir names) ->
    In name names ->
    accepted name = true ->
    convert_all_images_in_folder folder_path w = (Ok tt, w') ->
    exists results,
      file_text (path_join folder_path output_name) w' = Some (json_dumps results) /\
      dict_get results name = Some ("data:" ++ mime ++ ";base64,").
Proof.
  intros Hfile Hmime.
  assert (Huri : encoded_uri image_path [] = "data:" ++ mime ++ ";base64,").
  { unfold encoded_uri. destruct (mime_supported _ _ Hmime) as [_ ->].
    reflexivity. }
  split.
  - rewrite (image_to_data_uri_file _ _ _ Hfile), Huri. reflexivity.
  - intros folder_path name names w' Hpath Hdir Hin Hacc Hrun.
    rewrite (convert_dir _ _ _ Hdir) in Hrun.
    destruct (convert_loop folder_path names [] w) as [[results | e] w1] eqn:Hloop;
      [| discriminate].
    exists results. split.
    + destruct (lookup (path_join folder_path output_name) (fs w)) as [[data | l] |];
        try discriminate; injection Hrun as <-; apply written_file_text.
    + destruct (convert_loop_entries _ _ _ _ _ _ Hloop name)
        as [(_ & _ & d & Hd & Hget) | (Hnot & _)].
      * rewrite <- Hpath in Hd, Hget. rewrite Hfile in Hd.
        injection Hd as <-. rewrite Hget, Huri. reflexivity.
      * exfalso. apply Hnot. split; assumption.
Qed.

Lemma C10_empty_image_file_witness :
  image_to_data_uri "glyphs/blank.GIF" empty_image
    = (Ok ("data:" ++ "image/gif" ++ ";base64,"),
       emit (ReadFile "glyphs/blank.GIF") empty_image) /\
  exists results,
    file_text (path_join "glyphs" output_name)
      (snd (convert_all_images_in_folder "glyphs" empty_image))
    = Some (json_dumps results) /\
    dict_get results "blank.GIF" = Some ("data:" ++ "image/gif" ++ ";base64,").
Proof.
  destruct (C10_empty_image_file "glyphs/blank.GIF" "image/gif" empty_image
              eq_refl eq_refl) as [Hone Hbatch].
  split; [exact Hone |].
  apply (Hbatch "glyphs" "blank.GIF" ["m_00.png"; "blank.GIF"]
           (snd (convert_all_images_in_folder "glyphs" empty_image))).
  - reflexivity.
  - reflexivity.
  - right. left. reflexivity.
  - reflexivity.
  - vm_compute. reflexivity.
Defined.

(* ================================================================== *)
(** * Further properties of the converter *)

(** ** Outcome and effects of a run *)

Lemma convert_loop_log (folder : string) (names : list string) :
  forall results w results' w',
    convert_loop folder names results w = (Ok results', w') ->
    log w' = (log w ++ loop_events folder names)%list.
Proof.
  induction names as [| name rest IH]; intros results w results' w' Hrun.
  - injection Hrun as _ <-. cbn. rewrite app_nil_r. reflexivity.
  - rewrite convert_loop_cons in Hrun. unfold loop_events. cbn [flat_map].
    fold (loop_events folder rest).
    destruct (accepted name); [| exact (IH _ _ _ _ Hrun)].
    cbv zeta in Hrun.
    destruct (lookup (path_join folder name) (fs w)) as [[data | l] |];
      try discriminate.
    rewrite (IH _ _ _ _ Hrun). unfold emit. cbn [log].
    rewrite <- !app_assoc. reflexivity.
Qed.

(** The loop stops with an exception at an accepted name that is no regular
    file. *)
Lemma convert_loop_ok_files (folder : string) (names : list string) :
  forall results w results' w',
    convert_loop folder names results w = (Ok results', w') ->
    forall name, In name names -> accepted name = true ->
      exists data, lookup (path_join folder name) (fs w) = Some (File data).
Proof.
  intros results w results' w' Hrun name Hin Hacc.
  destruct (convert_loop_entries _ _ _ _ _ _ Hrun name)
    as [(_ & _ & d & Hd & _) | (Hnot & _)].
  - exists d. exact Hd.
  - exfalso. apply Hnot. split; assumption.
Qed.

(** The outcome of the converter, by what is at the path. *)
Lemma convert_cases (folder_path : string) (w : world) :
  (lookup folder_path (fs w) = None /\
   convert_all_images_in_folder folder_path w
   = (Ok tt, emit (Printed ("Error: Folder '" ++ folder_path ++ "' not found!")) w))
  \/
  (exists data, lookup folder_path (fs w) = Some (File data) /\
   convert_all_images_in_folder folder_path w
   = (Raise (NotADirectoryError folder_path), w))
  \/
  (exists names, lookup folder_path (fs w) = Some (Dir names)).
Proof.
  destruct (lookup folder_path (fs w)) as [[data | names] |] eqn:Hnode.
  - right. left. exists data. split; [reflexivity |].
    unfold convert_all_images_in_folder, bind, path_exists, iterdir.
    rewrite Hnode. cbn [negb]. rewrite Hnode. reflexivity.
  - right. right. exists names. reflexivity.
  - left. split; [reflexivity |].
    unfold convert_all_images_in_folder, bind, path_exists.
    rewrite Hnode. reflexivity.
Qed.

(** X2.  On a directory the converter returns normally exactly when every
    listed name that it accepts is a regular file and the name of its output
    file is not taken by a directory. *)
Theorem convert_completes_iff
        (folder_path : string) (names : list string) (w : world) :
  lookup folder_path (fs w) = Some (Dir names) ->
  (exists w', convert_all_images_in_folder folder_path w = (Ok tt, w')) <->
  (forall name, In name names -> accepted name = true ->
     exists data, lookup (path_join folder_path name) (fs w) = Some (File data)) /\
  (forall l, lookup (path_join folder_path output_name) (fs w) <> Some (Dir l)).
Proof.
  intros Hdir. rewrite (convert_dir _ _ _ Hdir). split.
  - intros (w' & Hrun).
    destruct (convert_loop folder_path names [] w) as [[results | e] w1] eqn:Hloop;
      [| discriminate].
    split; [exact (convert_loop_ok_files _ _ _ _ _ _ Hloop) |].
    intros l Hl. rewrite Hl in Hrun. discriminate.
  - intros (Hfiles & Hfree).
    destruct (convert_loop_total folder_path names [] w Hfiles) as (r & w1 & ->).
    destruct (lookup (path_join folder_path output_name) (fs w)) as [[data | l] |];
      [eexists; reflexivity | | eexists; reflexivity].
    exfalso. exact (Hfree l eq_refl).
Qed.

Lemma convert_completes_iff_witness :
  (exists w', convert_all_images_in_folder "glyphs" folder_named_png = (Ok tt, w')) <->
  (forall name, In name ["a.png"; "scan.png"] -> accepted name = true ->
     exists data,
       lookup (path_join "glyphs" name) (fs folder_named_png) = Some (File data)) /\
  (forall l, lookup (path_join "glyphs" output_name) (fs folder_named_png)
             <> Some (Dir l)).
Proof.
  apply (convert_completes_iff "glyphs" ["a.png"; "scan.png"] folder_named_png).
  reflexivity.
Defined.

(** X3.  Whatever its outcome, the converter changes nothing in the file
    system besides the listing of the folder and the output file: the images
    it reads, and every other file, stay as they are. *)
Theorem convert_touches_only_output (folder_path p : string) (w : world) :
  p <> folder_path ->
  p <> path_join folder_path output_name ->
  lookup p (fs (snd (convert_all_images_in_folder folder_path w)))
  = lookup p (fs w).
Proof.
  intros Hp Hout.
  destruct (convert_cases folder_path w)
    as [(_ & ->) | [(data & _ & ->) | (names & Hdir)]]; try reflexivity.
  rewrite (convert_dir _ _ _ Hdir).
  pose proof (convert_loop_fs folder_path names [] w) as Hfs.
  destruct (convert_loop folder_path names [] w) as [[results | e1] w1];
    cbn [snd] in Hfs; [| cbn [snd]; rewrite Hfs; reflexivity].
  destruct (lookup (path_join folder_path output_name) (fs w)) as [[d | l] |];
    cbn [snd]; rewrite <- ?Hfs; try reflexivity;
    apply (written_elsewhere folder_path output_name); assumption.
Qed.

Lemma convert_touches_only_output_witness :
  lookup "glyphs/a.png" (fs (snd (convert_all_images_in_folder "glyphs" two_files)))
  = lookup "glyphs/a.png" (fs two_files).
Proof.
  apply (convert_touches_only_output "glyphs" "glyphs/a.png" two_files);
    vm_compute; discriminate.
Defined.

(** ** The mapping and the trace of a completed run *)

Lemma dict_keys_set_new (d : dict) (k v : string) :
  ~ In k (dict_keys d) -> dict_keys (dict_set d k v) = (dict_keys d ++ [k])%list.
Proof.
  unfold dict_keys. induction d as [| [k' v'] d IH]; intros Hnew; [reflexivity |].
  cbn [dict_set map fst]. cbn [map fst In] in Hnew.
  destruct (String.eqb_spec k' k) as [-> | Hne]; [exfalso; auto |].
  cbn [map fst app]. rewrite IH by auto. reflexivity.
Qed.

Lemma convert_loop_keys (folder : string) (names : list string) :
  forall results w results' w',
    NoDup names ->
    (forall k, In k names -> ~ In k (dict_keys results)) ->
    convert_loop folder names results w = (Ok results', w') ->
    dict_keys results' = (dict_keys results ++ filter accepted names)%list.
Proof.
  induction names as [| name rest IH]; intros results w results' w' Hnd Hnew Hrun.
  - injection Hrun as <- _. cbn. rewrite app_nil_r. reflexivity.
  - rewrite convert_loop_cons in Hrun. cbn [filter].
    apply NoDup_cons_iff in Hnd. destruct Hnd as [Hhead Hnd].
    assert (Hrest : forall k, In k rest -> ~ In k (dict_keys results))
      by (intros k Hk; apply Hnew; right; exact Hk).
    destruct (accepted name); [| exact (IH _ _ _ _ Hnd Hrest Hrun)].
    cbv zeta in Hrun.
    destruct (lookup (path_join folder name) (fs w)) as [[data | l] |];
      try discriminate.
    assert (Hfresh : ~ In name (dict_keys results)) by (apply Hnew; left; reflexivity).
    assert (Hnew1 : forall k, In k rest ->
              ~ In k (dict_keys (dict_set results name
                                   (encoded_uri (path_join folder name) data)))).
    { intros k Hk. rewrite dict_keys_set_new by exact Hfresh.
      rewrite in_app_iff. cbn [In]. intros [Hin | [<- | []]].
      - exact (Hrest k Hk Hin).
      - exact (Hhead Hk). }
    rewrite (IH _ _ _ _ Hnd Hnew1 Hrun).
    rewrite dict_keys_set_new by exact Hfresh.
    rewrite <- app_assoc. reflexivity.
Qed.

(** X4.  After a completed run on a directory whose listing has no name
    twice, the keys of the mapping written are the accepted names in the
    order of the listing, and the number in the summary notice is their
    number. *)
Theorem convert_keys_in_listing_order
        (folder_path : string) (names : list string) (w w' : world) :
  lookup folder_path (fs w) = Some (Dir names) ->
  NoDup names ->
  convert_all_images_in_folder folder_path w = (Ok tt, w') ->
  exists results,
    file_text (path_join folder_path output_name) w' = Some (json_dumps results) /\
    dict_keys results = filter accepted names /\
    In (Printed (LF ++ "✓ Converted "
                    ++ str_of_nat (List.length (filter accepted names))
                    ++ " images"))
       (log w').
Proof.
  intros Hdir Hnd Hrun. rewrite (convert_dir _ _ _ Hdir) in Hrun.
  destruct (convert_loop folder_path names [] w) as [[results | e] w1] eqn:Hloop;
    [| discriminate].
  assert (Hkeys : dict_keys results = filter accepted names)
    by exact (convert_loop_keys folder_path names [] w results w1 Hnd
                (fun k _ H => H) Hloop).
  assert (Hcount : List.length (filter accepted names) = List.length results).
  { rewrite <- Hkeys. unfold dict_keys. apply length_map. }
  exists results.
  assert (Hw' : w' = report (List.length results) (path_join folder_path output_name)
                      (written folder_path output_name (json_dumps results) names w1)).
  { destruct (lookup (path_join folder_path output_name) (fs w)) as [[data | l] |];
      try discriminate; injection Hrun as <-; reflexivity. }
  rewrite Hw', Hcount. split; [apply written_file_text |]. split; [exact Hkeys |].
  unfold report, emit. cbn [log].
  rewrite !in_app_iff. cbn [In]. auto.
Qed.

Lemma convert_keys_in_listing_order_witness :
  exists results,
    file_text (path_join "glyphs" output_name)
      (snd (convert_all_images_in_folder "glyphs" empty_image))
    = Some (json_dumps results) /\
    dict_keys results = filter accepted ["m_00.png"; "blank.GIF"] /\
    In (Printed (LF ++ "✓ Converted "
                    ++ str_of_nat (List.length (filter accepted ["m_00.png"; "blank.GIF"]))
                    ++ " images"))
       (log (snd (convert_all_images_in_folder "glyphs" empty_image))).
Proof.
  apply (convert_keys_in_listing_order "glyphs" ["m_00.png"; "blank.GIF"] empty_image).
  - reflexivity.
  - repeat constructor; cbn; intuition discriminate.
  - vm_compute. reflexivity.
Defined.

(** X5.  The log of a completed run on a directory: for each accepted name,
    in the order of the listing, the notice [Converting: <name>] and then one
    read of that file; after them one write of the output file and the three
    closing notices.  No other file is read and nothing else is written. *)
Theorem convert_trace
        (folder_path : string) (names : list string) (w w' : world) :
  lookup folder_path (fs w) = Some (Dir names) ->
  convert_all_images_in_folder folder_path w = (Ok tt, w') ->
  exists results,
    log w' = (log w ++ loop_events folder_path names
                    ++ closing_events results (path_join folder_path output_name))%list.
Proof.
  intros Hdir Hrun. rewrite (convert_dir _ _ _ Hdir) in Hrun.
  destruct (convert_loop folder_path names [] w) as [[results | e] w1] eqn:Hloop;
    [| discriminate].
  exists results.
  assert (Hw' : w' = report (List.length results) (path_join folder_path output_name)
                      (written folder_path output_name (json_dumps results) names w1)).
  { destruct (lookup (path_join folder_path output_name) (fs w)) as [[data | l] |];
      try discriminate; injection Hrun as <-; reflexivity. }
  rewrite Hw'. unfold report, written, put_file, emit, closing_events. cbn [log].
  rewrite (convert_loop_log _ _ _ _ _ _ Hloop).
  rewrite <- !app_assoc. reflexivity.
Qed.

Lemma convert_trace_witness :
  exists results,
    log (snd (convert_all_images_in_folder "glyphs" two_files))
    = (log two_files ++ loop_events "glyphs" ["a.png"; "b.txt"]
         ++ closing_events results (path_join "glyphs" output_name))%list.
Proof.
  apply (convert_trace "glyphs" ["a.png"; "b.txt"] two_files).
  - reflexivity.
  - vm_compute. reflexivity.
Defined.

(** ** A second run *)

Lemma store_present (p : string) (n : node) (m : files) :
  lookup p m = Some n -> store p n m = m.
Proof.
  induction m as [| [q n'] m IH]; cbn [lookup store]; [discriminate |].
  destruct (String.eqb_spec q p) as [-> | Hne].
  - intros H. injection H as ->. reflexivity.
  - intros H. rewrite (IH H). reflexivity.
Qed.

Lemma add_name_again (name : string) (names : list string) :
  add_name name (add_name name names) = add_name name names.
Proof.
  assert (Hin : str_in name (add_name name names) = true).
  { unfold add_name. destruct (str_in name names) eqn:Hold; [exact Hold |].
    unfold str_in. rewrite existsb_app. cbn [existsb].
    rewrite String.eqb_refl. cbn [orb]. apply orb_true_r. }
  unfold add_name at 1. rewrite Hin. reflexivity.
Qed.

(** X6.  A second run, on the world that a completed first run on a
    directory leaves, changes nothing in the file system: the listing and
    every file, the output file included, are as the first run left them. *)
Theorem second_run_changes_nothing
        (folder_path : string) (names : list string) (w w1 w2 : world) :
  lookup folder_path (fs w) = Some (Dir names) ->
  convert_all_images_in_folder folder_path w = (Ok tt, w1) ->
  convert_all_images_in_folder folder_path w1 = (Ok tt, w2) ->
  fs w2 = fs w1.
Proof.
  intros Hdir Hrun Hrun2.
  set (output_file := path_join folder_path output_name) in *.
  rewrite (convert_dir _ _ _ Hdir) in Hrun.
  pose proof (convert_loop_fs folder_path names [] w) as Hfs.
  destruct (convert_loop folder_path names [] w) as [[results | e] wl] eqn:Hloop;
    [| discriminate].
  cbn [snd] in Hfs.
  assert (Hw1 : w1 = report (List.length results) output_file
                       (written folder_path output_name (json_dumps results) names wl)).
  { fold output_file in Hrun.
    destruct (lookup output_file (fs w)) as [[data | l] |];
      try discriminate; injection Hrun as <-; reflexivity. }
  clear Hrun.
  assert (Hdir1 : lookup folder_path (fs w1)
                  = Some (Dir (add_name output_name names)))
    by (rewrite Hw1; apply written_folder).
  assert (Hout1 : lookup output_file (fs w1)
                  = Some (File (list_byte_of_string (json_dumps results))))
    by (rewrite Hw1; apply lookup_store_same).
  assert (Hsame : forall name, In name names -> accepted name = true ->
            lookup (path_join folder_path name) (fs w1)
            = lookup (path_join folder_path name) (fs w)).
  { intros name _ Hacc. rewrite Hw1, <- Hfs.
    apply written_elsewhere; [apply path_join_not_folder |].
    intros Heq. apply path_join_inj in Heq. subst name.
    rewrite output_name_skipped in Hacc. discriminate. }
  assert (Hloop1 : fst (convert_loop folder_path (add_name output_name names) [] w1)
                   = Ok results).
  { rewrite convert_loop_relisted.
    rewrite (convert_loop_agree folder_path names [] w1 w Hsame), Hloop.
    reflexivity. }
  rewrite (convert_dir _ _ _ Hdir1) in Hrun2. fold output_file in Hrun2.
  rewrite Hout1 in Hrun2.
  pose proof (convert_loop_fs folder_path (add_name output_name names) [] w1) as Hfs1.
  destruct (convert_loop folder_path (add_name output_name names) [] w1)
    as [[r | e] wl1]; cbn [fst] in Hloop1; [| discriminate].
  injection Hloop1 as ->. cbn [snd] in Hfs1.
  injection Hrun2 as <-.
  unfold report, written, put_file, emit. cbn [fs].
  rewrite Hfs1, add_name_again.
  rewrite (store_present folder_path _ (fs w1) Hdir1).
  apply store_present. exact Hout1.
Qed.

Lemma second_run_changes_nothing_witness :
  let w1 := snd (convert_all_images_in_folder "glyphs" two_files) in
  fs (snd (convert_all_images_in_folder "glyphs" w1)) = fs w1.
Proof.
  intros w1.
  apply (second_run_changes_nothing "glyphs" ["a.png"; "b.txt"] two_files).
  - reflexivity.
  - vm_compute. reflexivity.
  - vm_compute. reflexivity.
Defined.

(** ** Letter case *)

Lemma lower_char_dot (a : ascii) :
  Ascii.eqb (lower_char a) "." = Ascii.eqb a ".".
Proof. destruct a as [[] [] [] [] [] [] [] []]; reflexivity. Qed.

Lemma lower_char_sep (a : ascii) :
  Ascii.eqb (lower_char a) "/" = Ascii.eqb a "/".
Proof. destruct a as [[] [] [] [] [] [] [] []]; reflexivity. Qed.

Lemma lower_char_again (a : ascii) : lower_char (lower_char a) = lower_char a.
Proof. destruct a as [[] [] [] [] [] [] [] []]; reflexivity. Qed.

Lemma lower_again (s : string) : lower (lower s) = lower s.
Proof.
  induction s as [| a s IH]; [reflexivity |].
  cbn [lower]. rewrite lower_char_again, IH. reflexivity.
Qed.

Lemma rfind_lower (c : ascii) (s : string) :
  (forall a, Ascii.eqb (lower_char a) c = Ascii.eqb a c) ->
  rfind c (lower s) = rfind c s.
Proof.
  intros Hc. induction s as [| a s IH]; [reflexivity |].
  cbn [lower rfind]. rewrite IH, Hc. reflexivity.
Qed.

Lemma len_lower (s : string) : len (lower s) = len s.
Proof.
  unfold len. f_equal. induction s as [| a s IH]; [reflexivity |].
  cbn [lower String.length]. rewrite IH. reflexivity.
Qed.

Lemma lower_str_take (n : nat) (s : string) :
  lower (str_take n s) = str_take n (lower s).
Proof.
  revert s. induction n as [| n IH]; intros s; [reflexivity |].
  destruct s as [| c s]; [reflexivity |].
  cbn [str_take lower]. rewrite IH. reflexivity.
Qed.

Lemma suffix_lower (name : string) : suffix (lower name) = lower (suffix name).
Proof.
  unfold suffix. rewrite (rfind_lower "." name lower_char_dot), len_lower.
  destruct ((0 <? rfind "." name) && (rfind "." name <? len name - 1));
    [| reflexivity].
  unfold slice_from. symmetry. apply lower_str_drop.
Qed.

Lemma eqb_lower_dot (x : string) : (lower x =? ".")%string = (x =? ".")%string.
Proof.
  destruct x as [| a [| b t]]; try reflexivity.
  - cbn [lower String.eqb]. rewrite lower_char_dot. reflexivity.
  - cbn [lower String.eqb]. rewrite lower_char_dot. reflexivity.
Qed.

Lemma splitext_scan_lower (p : string) (dotIndex : Z) (steps : nat) :
  forall filenameIndex,
    splitext_scan (lower p) dotIndex filenameIndex steps
    = (lower (fst (splitext_scan p dotIndex filenameIndex steps)),
       lower (snd (splitext_scan p dotIndex filenameIndex steps))).
Proof.
  induction steps as [| k IH]; intros filenameIndex; [reflexivity |].
  cbn [splitext_scan].
  assert (Hat : slice_at filenameIndex (lower p) = lower (slice_at filenameIndex p)).
  { unfold slice_at. rewrite lower_str_take, lower_str_drop. reflexivity. }
  rewrite Hat, eqb_lower_dot.
  destruct (negb (slice_at filenameIndex p =? ".")%string); [| apply IH].
  cbn [fst snd]. unfold slice_to, slice_from.
  rewrite lower_str_take, lower_str_drop. reflexivity.
Qed.

Lemma ext_of_lower (p : string) : ext_of (lower p) = ext_of p.
Proof.
  unfold ext_of, splitext.
  rewrite (rfind_lower "/" p lower_char_sep), (rfind_lower "." p lower_char_dot).
  destruct (rfind "/" p <? rfind "." p).
  - rewrite splitext_scan_lower. cbn [snd]. unfold slice_from.
    rewrite <- lower_str_drop. apply lower_again.
  - reflexivity.
Qed.

(** X7.  The tests on a listed name look at letters without regard to case:
    two names that are equal up to the case of their letters are both
    accepted or both skipped, by the converter and by the script. *)
Theorem accepted_ignores_case (a b : string) :
  lower a = lower b ->
  accepted a = accepted b /\ fixed_accepted a = fixed_accepted b.
Proof.
  intros Hab. unfold accepted, fixed_accepted.
  rewrite <- (suffix_lower a), <- (suffix_lower b), Hab. split; reflexivity.
Qed.

Lemma accepted_ignores_case_witness :
  accepted "Scan.JPeG" = accepted "scan.jpeg" /\
  fixed_accepted "Scan.JPeG" = fixed_accepted "scan.jpeg".
Proof. apply (accepted_ignores_case "Scan.JPeG" "scan.jpeg"). reflexivity. Defined.

(** X8.  [image_to_data_uri] gives the same string for the same content at
    two paths that are equal up to the case of their letters. *)
Theorem data_uri_ignores_case (p q : string) (data : list byte) (w : world) :
  lower p = lower q ->
  lookup p (fs w) = Some (File data) ->
  lookup q (fs w) = Some (File data) ->
  fst (image_to_data_uri p w) = fst (image_to_data_uri q w).
Proof.
  intros Hpq Hp Hq.
  rewrite (image_to_data_uri_file _ _ _ Hp), (image_to_data_uri_file _ _ _ Hq).
  cbn [fst]. unfold encoded_uri.
  rewrite <- (ext_of_lower p), <- (ext_of_lower q), Hpq. reflexivity.
Qed.

Lemma data_uri_ignores_case_witness :
  let w := mkWorld [("a.JPG", File [xff; xd8]); ("A.jpg", File [xff; xd8])] [] in
  fst (image_to_data_uri "a.JPG" w) = fst (image_to_data_uri "A.jpg" w).
Proof.
  intros w. apply (data_uri_ignores_case "a.JPG" "A.jpg" [xff; xd8] w); reflexivity.
Defined.

(** ** The extension and the folder part of a path *)

Lemma rfind_range (c : ascii) (s : string) : -1 <= rfind c s < len s.
Proof.
  induction s as [| a s IH].
  - cbn. unfold len. cbn. lia.
  - cbn [rfind]. rewrite len_cons.
    destruct (Z.leb_spec 0 (rfind c s)); [lia |].
    destruct (Ascii.eqb a c); lia.
Qed.

Lemma rfind_app_absent (c : ascii) (s t : string) :
  rfind c t = -1 -> rfind c (s ++ t) = rfind c s.
Proof.
  intros Ht. induction s as [| a s IH]; [exact Ht |].
  cbn [append rfind]. rewrite IH. reflexivity.
Qed.

(** The scan of [splitext] sees a path and its final part alike. *)
Lemma splitext_scan_shift (pre t : string) (d : Z) (steps : nat) :
  0 <= d ->
  forall f, 0 <= f ->
    snd (splitext_scan (pre ++ t) (len pre + d) (len pre + f) steps)
    = snd (splitext_scan t d f steps).
Proof.
  intros Hd. induction steps as [| k IH]; intros f Hf; [reflexivity |].
  cbn [splitext_scan].
  assert (Hat : slice_at (len pre + f) (pre ++ t) = slice_at f t).
  { unfold slice_at, len.
    replace (Z.to_nat (Z.of_nat (String.length pre) + f))
      with (String.length pre + Z.to_nat f)%nat by lia.
    rewrite str_drop_past. reflexivity. }
  rewrite Hat.
  destruct (negb (slice_at f t =? ".")%string).
  - cbn [snd]. unfold slice_from, len.
    replace (Z.to_nat (Z.of_nat (String.length pre) + d))
      with (String.length pre + Z.to_nat d)%nat by lia.
    apply str_drop_past.
  - rewrite <- Z.add_assoc. apply IH. lia.
Qed.

Lemma splitext_below_sep (folder name : string) :
  rfind "/" name = -1 ->
  snd (splitext (folder ++ String "/" name)) = snd (splitext name).
Proof.
  intros Hsep. unfold splitext.
  rewrite rfind_app_sep, Hsep by assumption.
  pose proof (rfind_range "." name) as Hdot.
  pose proof (rfind_range "." folder) as Hfd.
  pose proof (len_nonneg folder) as Hlen.
  destruct (Z.leb_spec 0 (rfind "." name)) as [Hfound | Habsent].
  - assert (Hone : rfind "." (String "/" name) = rfind "." name + 1).
    { cbn [rfind]. destruct (Z.leb_spec 0 (rfind "." name)); [reflexivity | lia]. }
    rewrite rfind_app_found by (rewrite Hone; lia). rewrite Hone.
    destruct (Z.ltb_spec (len folder) (len folder + (rfind "." name + 1))); [| lia].
    destruct (Z.ltb_spec (-1) (rfind "." name)); [| lia].
    replace (Z.to_nat (len folder + (rfind "." name + 1) - (len folder + 1)))
      with (Z.to_nat (rfind "." name - (-1 + 1))) by lia.
    rewrite (splitext_scan_shift folder (String "/" name) (rfind "." name + 1))
      by lia.
    pose proof (splitext_scan_shift "/" name (rfind "." name)
                  (Z.to_nat (rfind "." name - (-1 + 1))) Hfound 0 (Z.le_refl 0))
      as Hone'.
    change (len "/") with 1 in Hone'. rewrite (Z.add_comm 1) in Hone'.
    exact Hone'.
  - assert (Hone : rfind "." (String "/" name) = -1).
    { cbn [rfind]. destruct (Z.leb_spec 0 (rfind "." name)); [lia | reflexivity]. }
    rewrite rfind_app_absent by exact Hone.
    destruct (Z.ltb_spec (len folder) (rfind "." folder)); [lia |].
    destruct (Z.ltb_spec (-1) (rfind "." name)); [lia |].
    reflexivity.
Qed.

(** X9.  The media type that [image_to_data_uri] chooses depends on the final
    part of the path only: a dot in the name of a folder is never taken for
    the start of an extension. *)
Theorem ext_of_final_part (folder name : string) :
  rfind "/" name = -1 ->
  ext_of (path_join folder name) = ext_of name.
Proof.
  intros Hsep. unfold ext_of, path_join.
  change (folder ++ "/" ++ name) with (folder ++ String "/" name).
  rewrite splitext_below_sep by assumption. reflexivity.
Qed.

Lemma ext_of_final_part_witness :
  ext_of (path_join "my.photos/v1.2" "README") = ext_of "README".
Proof. apply (ext_of_final_part "my.photos/v1.2" "README"). reflexivity. Defined.

(** ** Accepted names and the table of media types *)

(** X10.  For an accepted entry whose name does not start with a dot, the
    extension that [image_to_data_uri] looks up is one of the table: the
    media type recorded is the one of the table, never the fallback. *)
Theorem accepted_has_table_mime (folder name rest : string) (c : ascii) :
  name = String c rest -> c <> "."%char -> rfind "/" name = -1 ->
  accepted name = true ->
  ext_of (path_join folder name) = slice_from 1 (lower (suffix name)) /\
  exists mime, dict_get mime_types (ext_of (path_join folder name)) = Some mime.
Proof.
  intros Hname Hc Hsep Hacc. apply accepted_iff in Hacc.
  assert (Hsuf : suffix name <> "").
  { intros H. rewrite H in Hacc. cbn in Hacc.
    repeat (destruct Hacc as [Hacc | Hacc]; [discriminate |]). exact Hacc. }
  rewrite (ext_of_entry folder name rest c) by assumption.
  split; [reflexivity |].
  cbn [In] in Hacc.
  destruct Hacc as [<- | [<- | [<- | [<- | [<- | []]]]]]; eexists; reflexivity.
Qed.

Lemma accepted_has_table_mime_witness :
  ext_of (path_join "glyphs" "Scan.JPeG") = slice_from 1 (lower (suffix "Scan.JPeG")) /\
  exists mime, dict_get mime_types (ext_of (path_join "glyphs" "Scan.JPeG")) = Some mime.
Proof.
  apply (accepted_has_table_mime "glyphs" "Scan.JPeG" "can.JPeG" "S");
    try reflexivity.
  discriminate.
Defined.

Lemma splitext_scan_dots (p : string) (d : Z) (steps : nat) :
  forall f,
    (forall j, f <= j < f + Z.of_nat steps -> slice_at j p = ".") ->
    splitext_scan p d f steps = (p, "").
Proof.
  induction steps as [| k IH]; intros f Hdots; [reflexivity |].
  cbn [splitext_scan]. rewrite (Hdots f) by lia. cbn [String.eqb Ascii.eqb negb].
  change (("." =? ".")%string) with true. cbn [negb].
  apply IH. intros j Hj. apply Hdots. lia.
Qed.

Lemma only_dots_at (pre t : string) :
  only_dots pre = true ->
  forall n, (n < String.length pre)%nat ->
    str_take 1 (str_drop n (pre ++ t)) = ".".
Proof.
  induction pre as [| a pre IH]; intros Hdots n Hn; [cbn in Hn; lia |].
  cbn [only_dots] in Hdots. apply andb_prop in Hdots. destruct Hdots as [Ha Hrest].
  apply Ascii.eqb_eq in Ha. subst a.
  destruct n as [| n]; [reflexivity |].
  cbn [append str_drop]. apply IH; [exact Hrest |]. cbn [String.length] in Hn. lia.
Qed.

(** X11.  A listed name made of dots, one more dot and an extension, such as
    [..jpg], has that extension as its pathlib suffix, so that the loop can
    accept it, but no extension for [os.path.splitext]: whatever the
    extension, [image_to_data_uri] labels its content [image/png]. *)
Theorem dotted_name_falls_back
        (folder pre e : string) (data : list byte) :
  only_dots pre = true -> pre <> "" -> e <> "" ->
  rfind "." e = -1 ->
  rfind "/" (pre ++ String "." e) = -1 ->
  let name := pre ++ String "." e in
  suffix name = String "." e /\
  encoded_uri (path_join folder name) data
  = "data:image/png;base64," ++ b64encode data.
Proof.
  intros Hdots Hpre He Hnodot Hsep name. subst name.
  set (name := pre ++ String "." e) in *.
  assert (Hrf : rfind "." name = len pre) by (apply rfind_app_sep; exact Hnodot).
  assert (Hlenpre : 0 < len pre).
  { destruct pre; [contradiction | rewrite len_cons; pose proof (len_nonneg pre); lia]. }
  split.
  - unfold suffix. rewrite Hrf.
    assert (Hlen : len name = len pre + (len e + 1)).
    { unfold name, len. rewrite length_app. cbn [String.length]. lia. }
    assert (0 < len e)
      by (destruct e; [contradiction | rewrite len_cons; pose proof (len_nonneg e); lia]).
    destruct (Z.ltb_spec 0 (len pre)); [| lia].
    destruct (Z.ltb_spec (len pre) (len name - 1)); [| lia].
    cbn [andb]. unfold slice_from, len. rewrite Nat2Z.id.
    apply str_drop_app.
  - unfold encoded_uri. rewrite ext_of_final_part by exact Hsep.
    unfold ext_of, splitext. rewrite Hsep, Hrf.
    destruct (Z.ltb_spec (-1) (len pre)); [| lia].
    rewrite splitext_scan_dots; [reflexivity |].
    intros j Hj. unfold slice_at, name.
    apply only_dots_at; [exact Hdots | unfold len in *; lia].
Qed.

Lemma dotted_name_falls_back_witness :
  let name := ".." ++ String "." "jpg" in
  suffix name = String "." "jpg" /\
  encoded_uri (path_join "glyphs" name) [xff; xd8]
  = "data:image/png;base64," ++ b64encode [xff; xd8].
Proof.
  apply (dotted_name_falls_back "glyphs" ".." "jpg" [xff; xd8]);
    try reflexivity; discriminate.
Defined.

(** ** Content and size of a data URI *)

Lemma append_cancel_l (s a b : string) : s ++ a = s ++ b -> a = b.
Proof.
  induction s as [| c s IH]; cbn [append]; intros H; [exact H |].
  injection H as H. exact (IH H).
Qed.

Lemma b64encode_injective (d1 d2 : list byte) :
  b64encode d1 = b64encode d2 -> d1 = d2.
Proof.
  intros H. apply (f_equal b64decode) in H. rewrite !b64_roundtrip in H.
  injection H as H. exact H.
Qed.

(** X12.  At one path, contents that differ give data URIs that differ: when
    [image_to_data_uri] returns the same string in two worlds, the files it
    read there hold the same bytes. *)
Theorem data_uri_fixes_content
        (image_path : string) (d1 d2 : list byte) (w1 w2 : world) :
  lookup image_path (fs w1) = Some (File d1) ->
  lookup image_path (fs w2) = Some (File d2) ->
  fst (image_to_data_uri image_path w1) = fst (image_to_data_uri image_path w2) ->
  d1 = d2.
Proof.
  intros H1 H2 Heq.
  rewrite (image_to_data_uri_file _ _ _ H1), (image_to_data_uri_file _ _ _ H2) in Heq.
  cbn [fst] in Heq. assert (Huri : encoded_uri image_path d1 = encoded_uri image_path d2)
    by congruence.
  clear Heq. rename Huri into Heq. unfold encoded_uri in Heq.
  apply (append_cancel_l "data:") in Heq.
  apply (append_cancel_l (dict_get_default mime_types (ext_of image_path) "image/png"))
    in Heq.
  apply (append_cancel_l ";base64,") in Heq.
  apply b64encode_injective. exact Heq.
Qed.

Lemma data_uri_fixes_content_witness : [x89; x50] = [x89; x50].
Proof.
  apply (data_uri_fixes_content "a.png" [x89; x50] [x89; x50]
           (mkWorld [("a.png", File [x89; x50])] [])
           (mkWorld [("a.png", File [x89; x50])] [Printed "x"]));
    reflexivity.
Defined.

Lemma b64encode_length (data : list byte) :
  String.length (b64encode data) = (4 * ((List.length data + 2) / 3))%nat.
Proof.
  induction data as [| a | a b | a b c rest IH] using list_ind3;
    try reflexivity.
  cbn [b64encode String.length List.length]. rewrite IH.
  replace (S (S (S (List.length rest))) + 2)%nat
    with (List.length rest + 2 + 1 * 3)%nat by lia.
  rewrite Nat.div_add by lia. lia.
Qed.

(** X13.  The string that [image_to_data_uri] returns for a file of [n]
    bytes has 13 characters, those of the media type, and four characters
    for every three bytes of content, the last group filled up: its payload
    is a multiple of four long. *)
Theorem data_uri_length (image_path : string) (data : list byte) (w : world) :
  lookup image_path (fs w) = Some (File data) ->
  exists uri,
    fst (image_to_data_uri image_path w) = Ok uri /\
    String.length uri
    = (13 + String.length (dict_get_default mime_types (ext_of image_path) "image/png")
       + 4 * ((List.length data + 2) / 3))%nat.
Proof.
  intros Hfile. rewrite (image_to_data_uri_file _ _ _ Hfile).
  eexists. split; [reflexivity |].
  unfold encoded_uri. rewrite !length_app, b64encode_length.
  cbn [String.length]. lia.
Qed.

Lemma data_uri_length_witness :
  exists uri,
    fst (image_to_data_uri "glyphs/a.png" two_files) = Ok uri /\
    String.length uri
    = (13 + String.length (dict_get_default mime_types (ext_of "glyphs/a.png") "image/png")
       + 4 * ((List.length [x89; x50; x4e; x47] + 2) / 3))%nat.
Proof.
  apply (data_uri_length "glyphs/a.png" [x89; x50; x4e; x47] two_files).
  reflexivity.
Defined.

(** ** Data URIs in the JSON text *)

Lemma plain_char_copied (c : ascii) :
  plain_char c = true ->
  (byte_to_Z (byte_of_ascii c) <? 128) = true /\
  escape_code_point (byte_to_Z (byte_of_ascii c)) = String c "".
Proof.
  destruct c as [[] [] [] [] [] [] [] []]; intros H;
    try discriminate H; split; reflexivity.
Qed.

Lemma concat_cons (x : string) (xs : list string) :
  String.concat "" (x :: xs) = x ++ String.concat "" xs.
Proof.
  destruct xs as [| y ys]; cbn [String.concat append]; [| reflexivity].
  induction x as [| c x IH]; [reflexivity |].
  cbn [append]. rewrite <- IH. reflexivity.
Qed.

Lemma plain_escaped (s : string) :
  plain s = true ->
  String.concat ""
    (map escape_code_point (code_points (map byte_to_Z (list_byte_of_string s))))
  = s.
Proof.
  unfold list_byte_of_string.
  induction s as [| c s IH]; intros Hplain; [reflexivity |].
  cbn [plain] in Hplain. apply andb_prop in Hplain. destruct Hplain as [Hc Hs].
  destruct (plain_char_copied c Hc) as [Hlow Hesc].
  cbn [list_ascii_of_string map code_points]. rewrite Hlow.
  cbn [map]. rewrite concat_cons, Hesc, (IH Hs). reflexivity.
Qed.

Lemma plain_app (s t : string) : plain (s ++ t) = plain s && plain t.
Proof.
  induction s as [| c s IH]; [reflexivity |].
  cbn [append plain]. rewrite IH. apply andb_assoc.
Qed.

Lemma digits_plain :
  forallb (fun n => plain_char (b2a (Z.of_nat n))) (seq 0 64) = true.
Proof. vm_compute. reflexivity. Qed.

Lemma digit_plain (n k : Z) : 0 <= k -> plain_char (digit n k) = true.
Proof.
  intros Hk. unfold digit. pose proof (sextet_range n k Hk) as Hr.
  replace (sextet n k) with (Z.of_nat (Z.to_nat (sextet n k))) by lia.
  apply (proj1 (forallb_forall _ _) digits_plain (Z.to_nat (sextet n k))).
  apply in_seq. lia.
Qed.

Lemma b64encode_plain (data : list byte) : plain (b64encode data) = true.
Proof.
  induction data as [| a | a b | a b c rest IH] using list_ind3;
    cbn [b64encode plain]; rewrite ?digit_plain by lia; rewrite ?IH; reflexivity.
Qed.

Lemma encoded_uri_plain (image_path : string) (data : list byte) :
  plain (encoded_uri image_path data) = true.
Proof.
  unfold encoded_uri. rewrite !plain_app, b64encode_plain.
  pose proof (mime_cases (ext_of image_path)) as Hm. cbn [In] in Hm.
  destruct Hm as [<- | [<- | [<- | [<- | []]]]]; reflexivity.
Qed.

(** X14.  In the JSON text the data URI that [image_to_data_uri] returns
    stands as it is between two double quotes: no character of it is
    escaped, so the value can be copied from the file as the closing notice
    says. *)
Theorem data_uri_verbatim_in_json
        (image_path : string) (data : list byte) (w : world) :
  lookup image_path (fs w) = Some (File data) ->
  exists uri,
    fst (image_to_data_uri image_path w) = Ok uri /\
    py_encode_basestring_ascii uri = DQ ++ uri ++ DQ /\
    forall name,
      json_item (name, uri) = py_encode_basestring_ascii name ++ ": " ++ DQ ++ uri ++ DQ.
Proof.
  intros Hfile. rewrite (image_to_data_uri_file _ _ _ Hfile).
  exists (encoded_uri image_path data). split; [reflexivity |].
  assert (Hq : py_encode_basestring_ascii (encoded_uri image_path data)
               = DQ ++ encoded_uri image_path data ++ DQ).
  { unfold py_encode_basestring_ascii.
    rewrite plain_escaped by apply encoded_uri_plain. reflexivity. }
  split; [exact Hq |].
  intros name. unfold json_item. cbn [fst snd]. rewrite Hq. reflexivity.
Qed.

Lemma data_uri_verbatim_in_json_witness :
  exists uri,
    fst (image_to_data_uri "glyphs/a.png" two_files) = Ok uri /\
    py_encode_basestring_ascii uri = DQ ++ uri ++ DQ /\
    forall name,
      json_item (name, uri) = py_encode_basestring_ascii name ++ ": " ++ DQ ++ uri ++ DQ.
Proof.
  apply (data_uri_verbatim_in_json "glyphs/a.png" [x89; x50; x4e; x47] two_files).
  reflexivity.
Defined.

(** ** The [__main__] block *)

Lemma main_steps (w : world) :
  let w0 := emit (Printed "=== Single Image Example ===") w in
  main w =
  match lookup "glyphs/m_00.png" (fs w) with
  | Some (File data) =>
      (convert_all_images_in_folder "glyphs" ;;
       convert_all_images_in_folder "examples")
        (emit (Printed "=== Batch Conversion ===")
           (emit (Printed ("Data URI preview: "
                             ++ slice_to 100 (encoded_uri "glyphs/m_00.png" data)
                             ++ "..." ++ LF))
              (emit (ReadFile "glyphs/m_00.png") w0)))
  | Some (Dir _) => (Raise (IsADirectoryError "glyphs/m_00.png"), w0)
  | None => (Raise (FileNotFoundError "glyphs/m_00.png"), w0)
  end.
Proof.
  cbv zeta. unfold main.
  unfold bind at 1. unfold print at 1.
  unfold bind at 1. unfold image_to_data_uri, bind at 1, read_bytes, ret.
  cbn [fs emit].
  destruct (lookup "glyphs/m_00.png" (fs w)) as [[data | l] |]; reflexivity.
Qed.

(** X15.  The [__main__] block converts the single image [glyphs/m_00.png]
    first: when no regular file is at that path the block raises after its
    first banner, and neither folder is converted, whatever they hold. *)
Theorem main_without_sample (w : world) :
  (forall data, lookup "glyphs/m_00.png" (fs w) <> Some (File data)) ->
  exists e,
    main w = (Raise e, emit (Printed "=== Single Image Example ===") w).
Proof.
  intros Hnone. rewrite main_steps.
  destruct (lookup "glyphs/m_00.png" (fs w)) as [[data | l] |] eqn:Hnode.
  - exfalso. exact (Hnone data eq_refl).
  - eexists. reflexivity.
  - eexists. reflexivity.
Qed.

Lemma main_without_sample_witness :
  exists e,
    main two_files = (Raise e, emit (Printed "=== Single Image Example ===") two_files).
Proof.
  apply (main_without_sample two_files). intros data. vm_compute. discriminate.
Defined.

(** ** The fixed-folder script *)

Lemma fixed_loop_cons (folder name : string) (rest : list string)
      (results : dict) (w : world) :
  fixed_loop folder (name :: rest) results w =
  if fixed_accepted name then
    match lookup (path_join folder name) (fs w) with
    | Some (File data) =>
        fixed_loop folder rest (dict_set results name (fixed_entry name data))
          (emit (Printed ("Converted: " ++ name))
             (emit (ReadFile (path_join folder name)) w))
    | Some (Dir _) => (Raise (IsADirectoryError (path_join folder name)), w)
    | None => (Raise (FileNotFoundError (path_join folder name)), w)
    end
  else fixed_loop folder rest results w.
Proof.
  cbn [fixed_loop]. unfold fixed_accepted.
  destruct (str_in (lower (suffix name)) fixed_extensions); [| reflexivity].
  unfold bind at 1. unfold read_bytes.
  destruct (lookup (path_join folder name) (fs w)) as [[data | l] |]; reflexivity.
Qed.

Lemma fixed_loop_fs (folder : string) (names : list string) :
  forall results w, fs (snd (fixed_loop folder names results w)) = fs w.
Proof.
  induction names as [| name rest IH]; intros results w; [reflexivity |].
  rewrite fixed_loop_cons.
  destruct (fixed_accepted name); [| apply IH].
  destruct (lookup (path_join folder name) (fs w)) as [[data | l] |];
    [rewrite IH |..]; reflexivity.
Qed.

Lemma fixed_loop_total (folder : string) (names : list string) :
  forall results w,
    (forall name, In name names -> fixed_accepted name = true ->
       exists data, lookup (path_join folder name) (fs w) = Some (File data)) ->
    exists results' w', fixed_loop folder names results w = (Ok results', w').
Proof.
  induction names as [| name rest IH]; intros results w Hfiles.
  - exists results, w. reflexivity.
  - rewrite fixed_loop_cons.
    assert (Hrest : forall w', fs w' = fs w ->
              forall n, In n rest -> fixed_accepted n = true ->
                exists data, lookup (path_join folder n) (fs w') = Some (File data))
      by (intros w' -> n Hn; apply Hfiles; right; exact Hn).
    destruct (fixed_accepted name) eqn:Hacc; [| apply IH, (Hrest w eq_refl)].
    destruct (Hfiles name (or_introl eq_refl) Hacc) as [data ->].
    apply IH, Hrest. reflexivity.
Qed.

Lemma fixed_loop_log (folder : string) (names : list string) :
  forall results w results' w',
    fixed_loop folder names results w = (Ok results', w') ->
    log w' = (log w ++ fixed_events folder names)%list.
Proof.
  induction names as [| name rest IH]; intros results w results' w' Hrun.
  - injection Hrun as _ <-. cbn. rewrite app_nil_r. reflexivity.
  - rewrite fixed_loop_cons in Hrun. unfold fixed_events. cbn [flat_map].
    fold (fixed_events folder rest).
    destruct (fixed_accepted name); [| exact (IH _ _ _ _ Hrun)].
    destruct (lookup (path_join folder name) (fs w)) as [[data | l] |];
      try discriminate.
    rewrite (IH _ _ _ _ Hrun). unfold emit. cbn [log].
    rewrite <- !app_assoc. reflexivity.
Qed.

Lemma fixed_loop_entries (folder : string) (names : list string) :
  forall results w results' w',
    fixed_loop folder names results w = (Ok results', w') ->
    forall k,
      (In k names /\ fixed_accepted k = true /\
       exists data,
         lookup (path_join folder k) (fs w) = Some (File data) /\
         dict_get results' k = Some (fixed_entry k data))
      \/
      (~ (In k names /\ fixed_accepted k = true) /\
       dict_get results' k = dict_get results k).
Proof.
  induction names as [| name rest IH]; intros results w results' w' Hrun k.
  - injection Hrun as <- <-. right. split; [intros [[] _] | reflexivity].
  - rewrite fixed_loop_cons in Hrun.
    destruct (fixed_accepted name) eqn:Hacc.
    + destruct (lookup (path_join folder name) (fs w)) as [[data | l] |] eqn:Hfile;
        try discriminate.
      destruct (IH _ _ _ _ Hrun k) as [(Hin & Hk & d & Hd & Hget) | (Hnot & Hget)].
      * left. repeat split; [right; exact Hin | exact Hk |].
        exists d. split; [exact Hd | exact Hget].
      * destruct (String.eqb_spec k name) as [-> | Hne].
        -- left. repeat split; [left; reflexivity | exact Hacc |].
           exists data. split; [exact Hfile |].
           rewrite Hget. apply dict_get_set_same.
        -- right. split.
           ++ intros [[Heq | Hin] Hk]; [congruence | apply Hnot; auto].
           ++ rewrite Hget. apply dict_get_set_other. exact Hne.
    + destruct (IH _ _ _ _ Hrun k) as [(Hin & Hk & d & Hd & Hget) | (Hnot & Hget)].
      * left. repeat split; [right; exact Hin | exact Hk |].
        exists d. split; [exact Hd | exact Hget].
      * right. split; [| exact Hget].
        intros [[Heq | Hin] Hk]; [congruence | apply Hnot; auto].
Qed.

Lemma script_on_listing (names : list string) (w : world) :
  lookup "primary" (fs w) = Some (Dir names) ->
  fixed_folder_script w =
  match fixed_loop "primary" names [] w with
  | (Ok results, w1) =>
      match write_text "examples/converted_images.json" (json_dumps results) w1 with
      | (Ok _, w2) =>
          (Ok tt,
           emit (Printed (LF ++ "Done! Saved to examples/converted_images.json")) w2)
      | (Raise e, w2) => (Raise e, w2)
      end
  | (Raise e, w1) => (Raise e, w1)
  end.
Proof.
  intros Hdir. unfold fixed_folder_script.
  unfold bind at 1. unfold iterdir. rewrite Hdir.
  unfold bind at 1.
  destruct (fixed_loop "primary" names [] w) as [[results | e] w1]; [| reflexivity].
  unfold bind at 1. unfold print.
  destruct (write_text "examples/converted_images.json" (json_dumps results) w1)
    as [[[] | e] w2]; reflexivity.
Qed.

Lemma fixed_accepted_iff (name : string) :
  fixed_accepted name = true <->
  In (lower (suffix name)) [".png"; ".jpg"; ".jpeg"].
Proof.
  unfold fixed_accepted, str_in. rewrite existsb_exists. split.
  - intros (e & He & Heq). apply String.eqb_eq in Heq. subst e. exact He.
  - intros He. exists (lower (suffix name)). split; [exact He | apply String.eqb_refl].
Qed.

(** X17.  The script does not test its output folder either: when [examples]
    is absent and every accepted file of [primary] is readable, it reads and
    reports every one of them, in the order of the listing, and only then
    raises [FileNotFoundError] at the output file; nothing is written. *)
Theorem script_without_output_folder (names : list string) (w : world) :
  lookup "primary" (fs w) = Some (Dir names) ->
  (forall name, In name names -> fixed_accepted name = true ->
     exists data, lookup (path_join "primary" name) (fs w) = Some (File data)) ->
  lookup "examples" (fs w) = None ->
  lookup "examples/converted_images.json" (fs w) = None ->
  exists w',
    fixed_folder_script w
    = (Raise (FileNotFoundError "examples/converted_images.json"), w') /\
    fs w' = fs w /\
    log w' = (log w ++ fixed_events "primary" names)%list.
Proof.
  intros Hdir Hfiles Hnone Hout. rewrite (script_on_listing _ _ Hdir).
  destruct (fixed_loop_total "primary" names [] w Hfiles) as (r & w1 & Hloop).
  pose proof (fixed_loop_fs "primary" names [] w) as Hfs.
  pose proof (fixed_loop_log _ _ _ _ _ _ Hloop) as Hlog.
  rewrite Hloop in *. cbn [snd] in Hfs.
  exists w1. unfold write_text.
  change (parent_of "examples/converted_images.json")
    with (Some ("examples", "converted_images.json")).
  cbv beta iota. rewrite Hfs, Hout, Hnone.
  split; [reflexivity | split; [reflexivity | exact Hlog]].
Qed.

Lemma script_without_output_folder_witness :
  exists w',
    fixed_folder_script no_output_folder
    = (Raise (FileNotFoundError "examples/converted_images.json"), w') /\
    fs w' = fs no_output_folder /\
    log w' = (log no_output_folder ++ fixed_events "primary" ["a.jpg"; "b.gif"])%list.
Proof.
  apply (script_without_output_folder ["a.jpg"; "b.gif"] no_output_folder);
    try reflexivity.
  intros name [<- | [<- | []]] Hacc.
  - eexists. reflexivity.
  - vm_compute in Hacc. discriminate.
Defined.

(** X18.  When the script runs to its end, the mapping it writes to
    [examples/converted_images.json] has as keys the listed names of
    [primary] whose suffix in lower case is [.png], [.jpg] or [.jpeg], each
    with the entry built from the bytes of that file; names in [.gif] or
    [.webp] are left out, and the folder [primary] is listed as before. *)
Theorem script_output (names : list string) (w w' : world) :
  lookup "primary" (fs w) = Some (Dir names) ->
  fixed_folder_script w = (Ok tt, w') ->
  exists results,
    file_text "examples/converted_images.json" w' = Some (json_dumps results) /\
    (forall k,
        In k (dict_keys results) <->
        In k names /\ In (lower (suffix k)) [".png"; ".jpg"; ".jpeg"]) /\
    (forall k v,
        dict_get results k = Some v ->
        exists data,
          lookup (path_join "primary" k) (fs w) = Some (File data) /\
          v = fixed_entry k data) /\
    lookup "primary" (fs w') = Some (Dir names).
Proof.
  intros Hdir Hrun. rewrite (script_on_listing _ _ Hdir) in Hrun.
  pose proof (fixed_loop_fs "primary" names [] w) as Hfs.
  destruct (fixed_loop "primary" names [] w) as [[results | e] w1] eqn:Hloop;
    [| discriminate].
  cbn [snd] in Hfs. exists results.
  assert (Hentries : forall k,
            (In k names /\ fixed_accepted k = true /\
             exists data,
               lookup (path_join "primary" k) (fs w) = Some (File data) /\
               dict_get results k = Some (fixed_entry k data))
            \/ (~ (In k names /\ fixed_accepted k = true) /\ dict_get results k = None))
    by (intros k; exact (fixed_loop_entries _ _ _ _ _ _ Hloop k)).
  unfold write_text in Hrun.
  change (parent_of "examples/converted_images.json")
    with (Some ("examples", "converted_images.json")) in Hrun.
  cbv beta iota in Hrun.
  assert (Hw' : exists enames,
            w' = emit (Printed (LF ++ "Done! Saved to examples/converted_images.json"))
                   (written "examples" output_name (json_dumps results) enames w1)).
  { destruct (lookup "examples/converted_images.json" (fs w1)) as [[d | l] |];
      try discriminate;
      destruct (lookup "examples" (fs w1)) as [[d' | enames] |];
      try discriminate; injection Hrun as <-; exists enames; reflexivity. }
  destruct Hw' as [enames ->]. clear Hrun.
  split; [exact (written_file_text "examples" output_name _ enames w1) |].
  split; [| split].
  - intros k. rewrite dict_get_keys, <- fixed_accepted_iff.
    destruct (Hentries k) as [(Hin & Hk & d & _ & Hget) | (Hnot & Hget)];
      rewrite Hget.
    + split; [auto | discriminate].
    + split; [congruence | contradiction].
  - intros k v Hget.
    destruct (Hentries k) as [(_ & _ & d & Hd & Hget') | (_ & Hget')];
      rewrite Hget' in Hget; [| discriminate].
    injection Hget as <-. exists d. split; [exact Hd | reflexivity].
  - change (fs (emit _ ?x)) with (fs x).
    rewrite (written_elsewhere "examples" output_name) by discriminate.
    rewrite Hfs. exact Hdir.
Qed.

Lemma script_output_witness :
  let w' := snd (fixed_folder_script script_folders) in
  exists results,
    file_text "examples/converted_images.json" w' = Some (json_dumps results) /\
    (forall k,
        In k (dict_keys results) <->
        In k ["a.jpg"; "b.gif"; "C.PNG"] /\
        In (lower (suffix k)) [".png"; ".jpg"; ".jpeg"]) /\
    (forall k v,
        dict_get results k = Some v ->
        exists data,
          lookup (path_join "primary" k) (fs script_folders) = Some (File data) /\
          v = fixed_entry k data) /\
    lookup "primary" (fs w') = Some (Dir ["a.jpg"; "b.gif"; "C.PNG"]).
Proof.
  apply (script_output ["a.jpg"; "b.gif"; "C.PNG"] script_folders).
  - reflexivity.
  - vm_compute. reflexivity.
Defined.

(** X19.  For a listed name in [.png] or [.jpg] that does not start with a
    dot, the entry that the script builds is the string that
    [image_to_data_uri] returns for the same file. *)
Theorem script_entry_agrees
        (name rest : string) (c : ascii) (data : list byte) (w : world) :
  name = String c rest -> c <> "."%char -> rfind "/" name = -1 ->
  In (lower (suffix name)) [".png"; ".jpg"] ->
  lookup (path_join "primary" name) (fs w) = Some (File data) ->
  fst (image_to_data_uri (path_join "primary" name) w) = Ok (fixed_entry name data).
Proof.
  intros Hname Hc Hsep Hin Hfile.
  rewrite (image_to_data_uri_file _ _ _ Hfile). cbn [fst].
  rewrite (fixed_entry_agrees "primary" name rest c data) by assumption.
  reflexivity.
Qed.

Lemma script_entry_agrees_witness :
  fst (image_to_data_uri (path_join "primary" "a.jpg") script_folders)
  = Ok (fixed_entry "a.jpg" [xff; xd8; xff]).
Proof.
  apply (script_entry_agrees "a.jpg" ".jpg" "a" [xff; xd8; xff] script_folders).
  - reflexivity.
  - discriminate.
  - reflexivity.
  - right. left. reflexivity.
  - reflexivity.
Defined.

(** X20.  For every listed name in [.jpeg] that does not start with a dot,
    the script labels the content [image/png] while [image_to_data_uri]
    labels the same file [image/jpeg]; the payloads are the same. *)
Theorem script_entry_jpeg
        (name rest : string) (c : ascii) (data : list byte) (w : world) :
  name = String c rest -> c <> "."%char -> rfind "/" name = -1 ->
  lower (suffix name) = ".jpeg" ->
  lookup (path_join "primary" name) (fs w) = Some (File data) ->
  fixed_entry name data = "data:image/png;base64," ++ b64encode data /\
  fst (image_to_data_uri (path_join "primary" name) w)
  = Ok ("data:image/jpeg;base64," ++ b64encode data).
Proof.
  intros Hname Hc Hsep Hjpeg Hfile.
  rewrite (image_to_data_uri_file _ _ _ Hfile). cbn [fst].
  destruct (fixed_entry_jpeg "primary" name rest c data Hname Hc Hsep Hjpeg)
    as [Hscript Hgeneral].
  rewrite Hgeneral. split; [exact Hscript | reflexivity].
Qed.

Lemma script_entry_jpeg_witness :
  fixed_entry "a.jpeg" [xff; xd8; xff]
  = "data:image/png;base64," ++ b64encode [xff; xd8; xff] /\
  fst (image_to_data_uri (path_join "primary" "a.jpeg") one_jpeg)
  = Ok ("data:image/jpeg;base64," ++ b64encode [xff; xd8; xff]).
Proof.
  apply (script_entry_jpeg "a.jpeg" ".jpeg" "a" [xff; xd8; xff] one_jpeg).
  - reflexivity.
  - discriminate.
  - reflexivity.
  - reflexivity.
  - reflexivity.
Defined.

(* ================================================================== *)
(** * Extensions and names by their text *)

(** ** Spelling in either case *)

Lemma upper_then_lower (p : ascii) :
  lower_char p = p -> lower_char (upper_char p) = p.
Proof.
  destruct p as [[] [] [] [] [] [] [] []]; intros H;
    try discriminate H; reflexivity.
Qed.

Lemma either_case (c : ascii) :
  Ascii.eqb c (lower_char c) || Ascii.eqb c (upper_char (lower_char c)) = true.
Proof. destruct c as [[] [] [] [] [] [] [] []]; reflexivity. Qed.

Lemma spelled_lower (word : string) :
  forall e, lower word = word -> spelled word e = true -> lower e = word.
Proof.
  induction word as [| p word IH]; intros e Hword Hsp;
    destruct e as [| c e]; try discriminate Hsp; [reflexivity |].
  cbn [lower] in Hword. injection Hword as Hp Hword.
  cbn [spelled] in Hsp. apply andb_prop in Hsp. destruct Hsp as [Hc Hsp].
  cbn [lower]. rewrite (IH e Hword Hsp). f_equal.
  apply orb_prop in Hc. destruct Hc as [Hc | Hc]; apply Ascii.eqb_eq in Hc; subst c.
  - exact Hp.
  - apply upper_then_lower. exact Hp.
Qed.

Lemma lower_spelled (e : string) : spelled (lower e) e = true.
Proof.
  induction e as [| c e IH]; [reflexivity |].
  cbn [lower spelled]. rewrite either_case, IH. reflexivity.
Qed.

Lemma image_words_lower (word : string) :
  In word image_words -> lower word = word /\ rfind "." word = -1 /\ word <> "".
Proof.
  cbn [image_words In].
  intros [<- | [<- | [<- | [<- | [<- | []]]]]]; repeat split; discriminate.
Qed.

(** ** The extension that [os.path.splitext] finds *)

Lemma str_app_assoc (a b c : string) : (a ++ b) ++ c = a ++ (b ++ c).
Proof.
  induction a as [| x a IH]; [reflexivity |].
  cbn [append]. rewrite IH. reflexivity.
Qed.

Lemma splitext_scan_skip (p : string) (d : Z) (n m : nat) :
  forall f,
    (forall j, f <= j < f + Z.of_nat n -> slice_at j p = ".") ->
    splitext_scan p d f (n + m) = splitext_scan p d (f + Z.of_nat n) m.
Proof.
  induction n as [| n IH]; intros f Hdots.
  - cbn [Nat.add Z.of_nat]. rewrite Z.add_0_r. reflexivity.
  - cbn [Nat.add splitext_scan]. rewrite (Hdots f) by lia.
    change (("." =? ".")%string) with true. cbn [negb].
    rewrite IH by (intros j Hj; apply Hdots; lia).
    f_equal. lia.
Qed.

(** A name with a character other than a dot before its last dot has what
    follows that dot, in lower case, as its extension. *)
Lemma ext_of_shape (dots stem e : string) (c : ascii) :
  only_dots dots = true -> c <> "."%char -> rfind "." e = -1 ->
  rfind "/" (dots ++ String c (stem ++ String "." e)) = -1 ->
  ext_of (dots ++ String c (stem ++ String "." e)) = lower e.
Proof.
  intros Hdots Hc He Hsep.
  set (name := dots ++ String c (stem ++ String "." e)) in *.
  assert (Hname : name = (dots ++ String c stem) ++ String "." e)
    by (unfold name; rewrite str_app_assoc; reflexivity).
  assert (Hrf : rfind "." name = len (dots ++ String c stem))
    by (rewrite Hname; apply rfind_app_sep; exact He).
  assert (Hlen : len (dots ++ String c stem)
                 = Z.of_nat (String.length dots + S (String.length stem)))
    by (unfold len; rewrite length_app; reflexivity).
  unfold ext_of, splitext. rewrite Hsep, Hrf, Hlen.
  destruct (Z.ltb_spec (-1) (Z.of_nat (String.length dots + S (String.length stem))));
    [| lia].
  replace (Z.to_nat (Z.of_nat (String.length dots + S (String.length stem)) - (-1 + 1)))
    with (String.length dots + S (String.length stem))%nat by lia.
  rewrite splitext_scan_skip.
  - cbn [splitext_scan].
    assert (Hat : slice_at (-1 + 1 + Z.of_nat (String.length dots)) name = String c "").
    { unfold slice_at, name.
      replace (Z.to_nat (-1 + 1 + Z.of_nat (String.length dots)))
        with (String.length dots) by lia.
      rewrite str_drop_app. reflexivity. }
    rewrite Hat.
    assert (Hne : (String c "" =? ".")%string = false).
    { apply String.eqb_neq. intros Heq. injection Heq as Heq. contradiction. }
    rewrite Hne. cbn [negb snd]. unfold slice_from.
    rewrite Nat2Z.id, Hname.
    replace (String.length dots + S (String.length stem))%nat
      with (String.length (dots ++ String c stem))
      by (rewrite length_app; reflexivity).
    rewrite str_drop_app. reflexivity.
  - intros j Hj. unfold slice_at, name.
    apply only_dots_at; [exact Hdots | lia].
Qed.

(** A name with nothing but dots before its last dot has no extension. *)
Lemma ext_of_dots (dots e : string) :
  only_dots dots = true -> rfind "." e = -1 ->
  rfind "/" (dots ++ String "." e) = -1 ->
  ext_of (dots ++ String "." e) = "".
Proof.
  intros Hdots He Hsep.
  unfold ext_of, splitext. rewrite Hsep, (rfind_app_sep "." dots e He).
  pose proof (len_nonneg dots) as Hlen.
  destruct (Z.ltb_spec (-1) (len dots)); [| lia].
  rewrite splitext_scan_dots; [reflexivity |].
  intros j Hj. unfold slice_at.
  apply only_dots_at; [exact Hdots | unfold len in *; lia].
Qed.

Lemma ext_of_no_dot (name : string) : rfind "." name = -1 -> ext_of name = "".
Proof.
  intros Hdot. unfold ext_of, splitext. rewrite Hdot.
  pose proof (rfind_range "/" name) as Hsep.
  destruct (Z.ltb_spec (rfind "/" name) (-1)); [lia | reflexivity].
Qed.

(** C2.  The media type in the string that [image_to_data_uri] returns is
    fixed by the extension in the text of the path, without its dot and
    whatever the case of its letters.  For a file name with a character
    other than a dot before its last dot, the extension is what follows that
    dot: spelled [png] it gives [image/png], spelled [jpg] or [jpeg]
    [image/jpeg], [gif] [image/gif], [webp] [image/webp], and any other
    extension [image/png].  A name with nothing but dots before its last dot,
    or without a dot, has no extension and gives [image/png].  The folder in
    front of the name plays no part. *)
Theorem C2_mime_by_extension
        (folder name image_path : string) (data : list byte) (w : world) :
  rfind "/" name = -1 ->
  image_path = name \/ image_path = path_join folder name ->
  lookup image_path (fs w) = Some (File data) ->
  exists uri mime,
    fst (image_to_data_uri image_path w) = Ok uri /\
    mime_segment uri = Some mime /\
    (forall dots stem e c,
        name = dots ++ String c (stem ++ String "." e) ->
        only_dots dots = true -> c <> "."%char -> rfind "." e = -1 ->
        (spelled "png" e = true -> mime = "image/png") /\
        (spelled "jpg" e = true -> mime = "image/jpeg") /\
        (spelled "jpeg" e = true -> mime = "image/jpeg") /\
        (spelled "gif" e = true -> mime = "image/gif") /\
        (spelled "webp" e = true -> mime = "image/webp") /\
        ((forall word, In word image_words -> spelled word e = false) ->
         mime = "image/png")) /\
    (forall dots e,
        name = dots ++ String "." e -> only_dots dots = true ->
        rfind "." e = -1 -> mime = "image/png") /\
    (rfind "." name = -1 -> mime = "image/png").
Proof.
  intros Hsep Hpath Hfile.
  assert (Hext : ext_of image_path = ext_of name).
  { destruct Hpath as [-> | ->]; [reflexivity | apply ext_of_final_part, Hsep]. }
  exists (encoded_uri image_path data),
         (dict_get_default mime_types (ext_of image_path) "image/png").
  rewrite (image_to_data_uri_file _ _ _ Hfile). split; [reflexivity |].
  split; [unfold encoded_uri; apply uri_mime_segment, mime_cases |].
  rewrite Hext. split; [| split].
  - intros dots stem e c Hname Hdots Hc He.
    rewrite Hname in Hsep |- *. rewrite (ext_of_shape dots stem e c) by assumption.
    destruct (mime_table (lower e)) as (Hpng & Hjpg & Hjpeg & Hgif & Hwebp & Hother).
    repeat split; intros Hsp.
    + apply Hpng, (spelled_lower "png"); [reflexivity | exact Hsp].
    + apply Hjpg, (spelled_lower "jpg"); [reflexivity | exact Hsp].
    + apply Hjpeg, (spelled_lower "jpeg"); [reflexivity | exact Hsp].
    + apply Hgif, (spelled_lower "gif"); [reflexivity | exact Hsp].
    + apply Hwebp, (spelled_lower "webp"); [reflexivity | exact Hsp].
    + apply Hother. intros Hin.
      pose proof (Hsp (lower e) Hin) as Hno.
      rewrite lower_spelled in Hno. discriminate.
  - intros dots e Hname Hdots He.
    rewrite Hname in Hsep |- *. rewrite (ext_of_dots dots e) by assumption.
    reflexivity.
  - intros Hnodot. rewrite (ext_of_no_dot name Hnodot). reflexivity.
Qed.

Lemma C2_mime_by_extension_witness :
  exists uri,
    fst (image_to_data_uri "glyphs/blank.GIF" empty_image) = Ok uri /\
    mime_segment uri = Some "image/gif".
Proof.
  destruct (C2_mime_by_extension "glyphs" "blank.GIF" "glyphs/blank.GIF" []
              empty_image eq_refl (or_intror eq_refl) eq_refl)
    as (uri & mime & Hrun & Hmime & Hshape & _).
  exists uri. split; [exact Hrun |].
  assert (Hb : "b"%char <> "."%char) by discriminate.
  destruct (Hshape "" "lank" "GIF" "b"%char eq_refl eq_refl Hb eq_refl)
    as (_ & _ & _ & Hgif & _).
  rewrite <- (Hgif eq_refl). exact Hmime.
Defined.

(** ** The names that the loop accepts *)

Lemma rfind_decompose (c : ascii) (s : string) :
  0 <= rfind c s ->
  exists pre t, s = pre ++ String c t /\ rfind c t = -1 /\ len pre = rfind c s.
Proof.
  induction s as [| a s IH]; cbn [rfind]; [lia |].
  pose proof (rfind_range c s) as Hr.
  destruct (Z.leb_spec 0 (rfind c s)) as [Hfound | Habsent].
  - intros _. destruct (IH Hfound) as (pre & t & -> & Ht & Hlen).
    exists (String a pre), t. rewrite len_cons, Hlen. auto.
  - destruct (Ascii.eqb_spec a c) as [-> | Hne]; [| lia].
    intros _. exists "", s. repeat split. lia.
Qed.

Lemma suffix_of_shape (stem e : string) :
  stem <> "" -> e <> "" -> rfind "." e = -1 ->
  suffix (stem ++ String "." e) = String "." e.
Proof.
  intros Hstem He Hdot. unfold suffix.
  rewrite (rfind_app_sep "." stem e Hdot).
  assert (Hlen : len (stem ++ String "." e) = len stem + (len e + 1))
    by (unfold len; rewrite length_app; cbn [String.length]; lia).
  assert (0 < len stem)
    by (destruct stem; [contradiction | rewrite len_cons; pose proof (len_nonneg stem); lia]).
  assert (0 < len e)
    by (destruct e; [contradiction | rewrite len_cons; pose proof (len_nonneg e); lia]).
  destruct (Z.ltb_spec 0 (len stem)); [| lia].
  destruct (Z.ltb_spec (len stem) (len (stem ++ String "." e) - 1)); [| lia].
  cbn [andb]. unfold slice_from, len. rewrite Nat2Z.id. apply str_drop_app.
Qed.

Lemma suffix_cases (name : string) :
  suffix name = "" \/
  exists stem e,
    name = stem ++ String "." e /\ stem <> "" /\ e <> "" /\
    rfind "." e = -1 /\ suffix name = String "." e.
Proof.
  unfold suffix.
  destruct ((0 <? rfind "." name) && (rfind "." name <? len name - 1)) eqn:Hi;
    [| left; reflexivity].
  right. apply andb_prop in Hi. destruct Hi as [Hlo Hhi].
  apply Z.ltb_lt in Hlo. apply Z.ltb_lt in Hhi.
  destruct (rfind_decompose "." name) as (stem & e & Hname & He & Hlen); [lia |].
  subst name. exists stem, e.
  assert (Hstem : stem <> "") by (intros ->; change (len "") with 0 in Hlen; lia).
  assert (Hne : e <> "").
  { intros ->. unfold len in *.
    rewrite length_app in Hhi. cbn [String.length] in Hhi. lia. }
  repeat split; try assumption.
  rewrite <- Hlen. unfold slice_from, len. rewrite Nat2Z.id.
  apply str_drop_app.
Qed.

Lemma dotted_in_extensions (e : string) :
  In (String "." e) extensions <-> In e image_words.
Proof.
  unfold extensions, image_words. cbn [In]. split.
  - intros [H | [H | [H | [H | [H | []]]]]]; injection H as <-; auto 6.
  - intros [<- | [<- | [<- | [<- | [<- | []]]]]]; auto 6.
Qed.

(** The loop accepts exactly the names made of a stem that is not empty, a
    dot and one of the five extensions in any letter case. *)
Lemma accepted_shape (name : string) : accepted name = true <-> image_name name.
Proof.
  rewrite accepted_iff. fold extensions. unfold image_name. split.
  - intros Hin. destruct (suffix_cases name) as [Hnone | (stem & e & Hname & Hstem & _ & _ & Hsuf)].
    + rewrite Hnone in Hin. cbn in Hin.
      repeat (destruct Hin as [Hin | Hin]; [discriminate |]). contradiction.
    + rewrite Hsuf in Hin. cbn [lower] in Hin.
      change (lower_char ".") with "."%char in Hin.
      apply dotted_in_extensions in Hin.
      exists stem, e, (lower e). repeat split; try assumption.
      apply lower_spelled.
  - intros (stem & e & word & Hname & Hstem & Hword & Hsp).
    destruct (image_words_lower word Hword) as (Hlow & Hnodot & Hne).
    pose proof (spelled_lower word e Hlow Hsp) as He.
    assert (Hdot : rfind "." e = -1)
      by (rewrite <- (rfind_lower "." e lower_char_dot), He; exact Hnodot).
    assert (Hnonempty : e <> "") by (intros ->; apply Hne; rewrite <- He; reflexivity).
    rewrite Hname, (suffix_of_shape stem e Hstem Hnonempty Hdot).
    cbn [lower]. change (lower_char ".") with "."%char.
    rewrite He. apply dotted_in_extensions. exact Hword.
Qed.

(** ** The text of the mapping *)

Lemma dict_set_plain (d : dict) (k v : string) :
  Forall (fun kv => plain (snd kv) = true) d -> plain v = true ->
  Forall (fun kv => plain (snd kv) = true) (dict_set d k v).
Proof.
  intros Hd Hv. induction d as [| [k' v'] d IH]; cbn [dict_set].
  - constructor; [exact Hv | constructor].
  - apply Forall_cons_iff in Hd. destruct Hd as [Hhead Hd].
    destruct (String.eqb k' k); constructor; auto.
Qed.

Lemma convert_loop_plain (folder : string) (names : list string) :
  forall results w results' w',
    Forall (fun kv => plain (snd kv) = true) results ->
    convert_loop folder names results w = (Ok results', w') ->
    Forall (fun kv => plain (snd kv) = true) results'.
Proof.
  induction names as [| name rest IH]; intros results w results' w' Hplain Hrun.
  - injection Hrun as <- _. exact Hplain.
  - rewrite convert_loop_cons in Hrun.
    destruct (accepted name); [| exact (IH _ _ _ _ Hplain Hrun)].
    cbv zeta in Hrun.
    destruct (lookup (path_join folder name) (fs w)) as [[data | l] |];
      try discriminate.
    apply (IH _ _ _ _ (dict_set_plain _ _ _ Hplain (encoded_uri_plain _ _)) Hrun).
Qed.

Lemma json_dumps_object (d : dict) :
  Forall (fun kv => plain (snd kv) = true) d -> json_dumps d = object_text d.
Proof.
  intros Hplain. unfold json_dumps, object_text.
  assert (Hitems :
    map json_item d
    = map (fun kv => py_encode_basestring_ascii (fst kv) ++ ": " ++ DQ ++ snd kv ++ DQ) d).
  { apply map_ext_in. intros [k v] Hin.
    rewrite Forall_forall in Hplain. specialize (Hplain (k, v) Hin).
    cbn [snd] in Hplain.
    unfold json_item. cbn [fst snd]. unfold py_encode_basestring_ascii at 2.
    rewrite plain_escaped by exact Hplain. reflexivity. }
  destruct d as [| kv d]; [reflexivity |].
  rewrite Hitems. reflexivity.
Qed.

(** C5.  When [convert_all_images_in_folder] runs to its end on a directory,
    the file it writes is a JSON object, indented by two spaces, whose keys
    are exactly the listed names, as listed, that are made of a stem, a dot
    and one of [png], [jpg], [jpeg], [gif], [webp] in any letter case; it
    does run to its end when every such name is a regular file and the name
    of the output file is not taken by a directory.  In particular a folder
    that lists [a.png] and [b.txt] gives the object with the one key
    [a.png]. *)
Theorem C5_keys_are_accepted_names
        (folder_path : string) (names : list string) (w : world) :
  lookup folder_path (fs w) = Some (Dir names) ->
  let output_file := path_join folder_path output_name in
  ((forall name, In name names -> image_name name ->
      exists data, lookup (path_join folder_path name) (fs w) = Some (File data)) ->
   (forall l, lookup output_file (fs w) <> Some (Dir l)) ->
   exists w', convert_all_images_in_folder folder_path w = (Ok tt, w')) /\
  (forall w',
      convert_all_images_in_folder folder_path w = (Ok tt, w') ->
      exists results,
        file_text output_file w' = Some (object_text results) /\
        forall k, In k (dict_keys results) <-> In k names /\ image_name k) /\
  (names = ["a.png"; "b.txt"] ->
   forall data,
     lookup (path_join folder_path "a.png") (fs w) = Some (File data) ->
     (forall l, lookup output_file (fs w) <> Some (Dir l)) ->
     file_text output_file (snd (convert_all_images_in_folder folder_path w))
     = Some ("{" ++ LF ++ "  " ++ DQ ++ "a.png" ++ DQ ++ ": "
                 ++ DQ ++ "data:image/png;base64," ++ b64encode data ++ DQ
                 ++ LF ++ "}")).
Proof.
  intros Hdir output_file. rewrite (convert_dir _ _ _ Hdir).
  fold output_file. split; [| split].
  - intros Hfiles Hfree.
    assert (Hacc : forall name, In name names -> accepted name = true ->
               exists data, lookup (path_join folder_path name) (fs w) = Some (File data))
      by (intros name Hin Ha; apply Hfiles; [exact Hin | apply accepted_shape, Ha]).
    destruct (convert_loop_total folder_path names [] w Hacc) as (r & w1 & ->).
    destruct (lookup output_file (fs w)) as [[data | l] |] eqn:Hout;
      [eexists; reflexivity | | eexists; reflexivity].
    exfalso. exact (Hfree l eq_refl).
  - intros w' Hrun.
    destruct (convert_loop folder_path names [] w) as [[results | e] w1] eqn:Hloop;
      [| discriminate].
    exists results. split.
    + rewrite <- json_dumps_object
        by exact (convert_loop_plain _ _ _ _ _ _ (Forall_nil _) Hloop).
      destruct (lookup output_file (fs w)) as [[data | l] |];
        try discriminate; injection Hrun as <-; apply written_file_text.
    + intros k. rewrite dict_get_keys, <- accepted_shape.
      destruct (convert_loop_entries _ _ _ _ _ _ Hloop k)
        as [(Hin & Hk & d & _ & Hget) | (Hnot & Hget)].
      * rewrite Hget. split; [auto | discriminate].
      * rewrite Hget. cbn [dict_get]. split; [congruence | contradiction].
  - intros -> data Hfile Hfree.
    rewrite convert_loop_cons. change (accepted "a.png") with true.
    cbv iota zeta. rewrite Hfile.
    rewrite convert_loop_cons. change (accepted "b.txt") with false.
    cbv iota. cbn [convert_loop ret dict_set].
    assert (Htext :
      json_dumps [("a.png", encoded_uri (path_join folder_path "a.png") data)]
      = "{" ++ LF ++ "  " ++ DQ ++ "a.png" ++ DQ ++ ": "
            ++ DQ ++ "data:image/png;base64," ++ b64encode data ++ DQ
            ++ LF ++ "}").
    { rewrite json_dumps_object
        by (constructor; [apply encoded_uri_plain | constructor]).
      unfold object_text, encoded_uri. cbn [map fst snd String.concat].
      rewrite ext_of_final_part by reflexivity.
      change (ext_of "a.png") with "png".
      change (dict_get_default mime_types "png" "image/png") with "image/png".
      change (py_encode_basestring_ascii "a.png") with (DQ ++ "a.png" ++ DQ).
      rewrite !str_app_assoc. reflexivity. }
    rewrite <- Htext.
    destruct (lookup output_file (fs w)) as [[d | l] |] eqn:Hout;
      [apply written_file_text | | apply written_file_text].
    exfalso. exact (Hfree l eq_refl).
Qed.

Lemma C5_keys_are_accepted_names_witness :
  file_text "glyphs/converted_images.json"
    (snd (convert_all_images_in_folder "glyphs" two_files))
  = Some ("{" ++ LF ++ "  " ++ DQ ++ "a.png" ++ DQ ++ ": "
              ++ DQ ++ "data:image/png;base64,iVBORw==" ++ DQ ++ LF ++ "}").
Proof.
  destruct (C5_keys_are_accepted_names "glyphs" ["a.png"; "b.txt"] two_files eq_refl)
    as (_ & _ & Hexample).
  apply (Hexample eq_refl [x89; x50; x4e; x47] eq_refl).
  intros l. vm_compute. discriminate.
Defined.

(* ================================================================== *)
(** * Failing and completing runs, again *)

Lemma convert_loop_no_write (folder : string) (names : list string) :
  forall results w p text,
    In (WroteFile p text) (log (snd (convert_loop folder names results w))) ->
    In (WroteFile p text) (log w).
Proof.
  assert (Hemit : forall w e p text,
            (forall q t, e <> WroteFile q t) ->
            In (WroteFile p text) (log (emit e w)) -> In (WroteFile p text) (log w)).
  { intros w e p text He Hin. unfold emit in Hin. cbn [log] in Hin.
    apply in_app_or in Hin. destruct Hin as [Hin | [Heq | []]]; [exact Hin |].
    exfalso. exact (He p text Heq). }
  induction names as [| name rest IH]; intros results w p text Hin; [exact Hin |].
  rewrite convert_loop_cons in Hin.
  destruct (accepted name); [| exact (IH _ _ _ _ Hin)].
  cbv zeta in Hin.
  destruct (lookup (path_join folder name) (fs w)) as [[data | l] |].
  - apply IH in Hin. apply Hemit in Hin; [| discriminate].
    apply Hemit in Hin; [exact Hin | discriminate].
  - cbn [snd] in Hin. apply Hemit in Hin; [exact Hin | discriminate].
  - cbn [snd] in Hin. apply Hemit in Hin; [exact Hin | discriminate].
Qed.

(** X1.  When an accepted entry of the folder is not a regular file, or the
    name of the output file is taken by a directory, the run of
    [convert_all_images_in_folder] on the folder raises, and it raises before
    anything is written: the file system is as it was, and an output file of
    an earlier run keeps its content. *)
Theorem convert_failure_writes_nothing
        (folder_path : string) (names : list string) (w : world) :
  lookup folder_path (fs w) = Some (Dir names) ->
  (exists name,
      In name names /\ accepted name = true /\
      forall data, lookup (path_join folder_path name) (fs w) <> Some (File data))
  \/ (exists l, lookup (path_join folder_path output_name) (fs w) = Some (Dir l)) ->
  exists e w',
    convert_all_images_in_folder folder_path w = (Raise e, w') /\
    fs w' = fs w /\
    forall p text, In (WroteFile p text) (log w') -> In (WroteFile p text) (log w).
Proof.
  intros Hdir Hcause. rewrite (convert_dir _ _ _ Hdir).
  pose proof (convert_loop_fs folder_path names [] w) as Hfs.
  pose proof (convert_loop_no_write folder_path names [] w) as Hlog.
  destruct (convert_loop folder_path names [] w) as [[results | e] w1] eqn:Hloop;
    cbn [snd] in Hfs, Hlog.
  - destruct Hcause as [(name & Hin & Hacc & Hbad) | (l & Htaken)].
    + exfalso.
      destruct (convert_loop_ok_files _ _ _ _ _ _ Hloop name Hin Hacc) as [d Hd].
      exact (Hbad d Hd).
    + rewrite Htaken. exists (IsADirectoryError (path_join folder_path output_name)), w1.
      split; [reflexivity | split; [exact Hfs | exact Hlog]].
  - exists e, w1. split; [reflexivity | split; [exact Hfs | exact Hlog]].
Qed.

Lemma convert_failure_writes_nothing_witness :
  exists e w',
    convert_all_images_in_folder "glyphs" folder_named_png = (Raise e, w') /\
    fs w' = fs folder_named_png /\
    forall p text,
      In (WroteFile p text) (log w') -> In (WroteFile p text) (log folder_named_png).
Proof.
  apply (convert_failure_writes_nothing "glyphs" ["a.png"; "scan.png"] folder_named_png).
  - reflexivity.
  - left. exists "scan.png". split; [right; left; reflexivity |].
    split; [reflexivity |]. intros data. vm_compute. discriminate.
Defined.

(** X16.  With the sample image and the folder [glyphs] in order and no
    folder [examples], the [__main__] block runs to its end.  It writes the
    mapping of [glyphs]: the keys of the object in
    [glyphs/converted_images.json] are the listed image names and each value
    is the string that [image_to_data_uri] returns for that file.  Its last
    act is the notice that [examples] was not found. *)
Theorem main_without_examples
        (data : list byte) (names : list string) (w : world) :
  lookup "glyphs/m_00.png" (fs w) = Some (File data) ->
  lookup "glyphs" (fs w) = Some (Dir names) ->
  (forall name, In name names -> accepted name = true ->
     exists d, lookup (path_join "glyphs" name) (fs w) = Some (File d)) ->
  (forall l, lookup "glyphs/converted_images.json" (fs w) <> Some (Dir l)) ->
  lookup "examples" (fs w) = None ->
  exists w' results,
    main w = (Ok tt, emit (Printed "Error: Folder 'examples' not found!") w') /\
    file_text "glyphs/converted_images.json" w' = Some (object_text results) /\
    (forall k, In k (dict_keys results) <-> In k names /\ image_name k) /\
    (forall k v,
        dict_get results k = Some v ->
        fst (image_to_data_uri (path_join "glyphs" k) w) = Ok v) /\
    lookup "examples" (fs w') = None.
Proof.
  intros Hsample Hdir Hfiles Hfree Hnone.
  rewrite main_steps, Hsample. cbv zeta.
  set (w3 := emit (Printed "=== Batch Conversion ===") _).
  assert (Hfs3 : fs w3 = fs w) by reflexivity.
  unfold bind at 1.
  rewrite (convert_dir "glyphs" names w3) by (rewrite Hfs3; exact Hdir).
  destruct (convert_loop_total "glyphs" names [] w3) as (r & wl & Hloop);
    [rewrite Hfs3; exact Hfiles |].
  pose proof (convert_loop_fs "glyphs" names [] w3) as Hfsl.
  rewrite Hloop in *. cbn [snd] in Hfsl. rewrite Hfs3.
  set (w4 := report (List.length r) (path_join "glyphs" output_name)
               (written "glyphs" output_name (json_dumps r) names wl)).
  assert (Hnone4 : lookup "examples" (fs w4) = None).
  { unfold w4. change (fs (report _ _ ?x)) with (fs x).
    rewrite (written_elsewhere "glyphs" output_name) by discriminate.
    rewrite Hfsl, Hfs3. exact Hnone. }
  assert (Hlast : convert_all_images_in_folder "examples" w4
                  = (Ok tt, emit (Printed "Error: Folder 'examples' not found!") w4)).
  { unfold convert_all_images_in_folder, bind, path_exists.
    rewrite Hnone4. reflexivity. }
  assert (Htext : file_text "glyphs/converted_images.json" w4 = Some (object_text r)).
  { rewrite <- json_dumps_object
      by exact (convert_loop_plain _ _ _ _ _ _ (Forall_nil _) Hloop).
    exact (written_file_text "glyphs" output_name (json_dumps r) names wl). }
  assert (Hkeys : forall k, In k (dict_keys r) <-> In k names /\ image_name k).
  { intros k. rewrite dict_get_keys, <- accepted_shape.
    destruct (convert_loop_entries _ _ _ _ _ _ Hloop k)
      as [(Hin & Hk & d & _ & Hget) | (Hnot & Hget)]; rewrite Hget.
    - split; [auto | discriminate].
    - cbn [dict_get]. split; [congruence | contradiction]. }
  assert (Hvalues : forall k v, dict_get r k = Some v ->
            fst (image_to_data_uri (path_join "glyphs" k) w) = Ok v).
  { intros k v Hget.
    destruct (convert_loop_entries _ _ _ _ _ _ Hloop k)
      as [(_ & _ & d & Hd & Hget') | (_ & Hget')];
      rewrite Hget' in Hget; [| discriminate].
    injection Hget as <-. rewrite Hfs3 in Hd.
    rewrite (image_to_data_uri_file _ _ _ Hd). reflexivity. }
  exists w4, r.
  change (path_join "glyphs" output_name) with "glyphs/converted_images.json" in *.
  destruct (lookup "glyphs/converted_images.json" (fs w)) as [[d | l] |] eqn:Hout.
  - rewrite Hlast. repeat split; try assumption; apply Hkeys; assumption.
  - exfalso. exact (Hfree l eq_refl).
  - rewrite Hlast. repeat split; try assumption; apply Hkeys; assumption.
Qed.

Lemma main_without_examples_witness :
  exists w' results,
    main no_examples
    = (Ok tt, emit (Printed "Error: Folder 'examples' not found!") w') /\
    file_text "glyphs/converted_images.json" w' = Some (object_text results) /\
    (forall k, In k (dict_keys results) <-> In k ["m_00.png"; "README"] /\ image_name k) /\
    (forall k v,
        dict_get results k = Some v ->
        fst (image_to_data_uri (path_join "glyphs" k) no_examples) = Ok v) /\
    lookup "examples" (fs w') = None.
Proof.
  apply (main_without_examples [x89; x50; x4e; x47] ["m_00.png"; "README"] no_examples).
  - reflexivity.
  - reflexivity.
  - intros name [<- | [<- | []]] Hacc.
    + eexists. reflexivity.
    + vm_compute in Hacc. discriminate.
  - intros l. vm_compute. discriminate.
  - reflexivity.
Defined.
